(** * GUVI-HCL training programme: the two dashboard applications

    [Cleaner] embeds the "Clean Data" block of [Project_2/app.py] (the
    missing-value imputation engine) and the sidebar report; [Inventory]
    embeds the record store of [Project_1/app.py] (sample generation, add,
    regenerate, clear) and its dashboard (summary cards, filtered table,
    grouped totals, alerts).

    The pandas calls the cleaner makes ([copy], [select_dtypes], [isnull],
    [mean], [median], [mode], [fillna]) are modelled after the pandas
    documentation, for pandas without copy-on-write, where
    [cleaned_df[col].fillna(v, inplace=True)] writes through to the frame
    (what the source relies on for its fills to take effect).

    Numbers come in two embeddings.  [Cleaner] holds a [float64] cell as an
    exact rational, [nan] being [None]: it serves the properties that rest
    on which cells are missing, on equality and on order, not on
    arithmetic.  [Cleaner64] holds it as an IEEE double, and is the one to
    read for what [mean()] returns. *)

From Stdlib Require Import List String Ascii Bool Arith ZArith QArith Qreduction Lia.
From Stdlib Require Import OrderedTypeEx DecimalString DecimalNat.
From Stdlib Require Import SpecFloat.
Import ListNotations.

Close Scope Q_scope.
Local Open Scope nat_scope.
Local Open Scope list_scope.

(** ** Most frequent values of a list, as [Series.mode] computes them *)

Section Modes.
Variable A : Type.
Variable eqb : A -> A -> bool.
Variable leb : A -> A -> bool.

Fixpoint count (x : A) (l : list A) : nat :=
  match l with
  | [] => 0
  | y :: l' => (if eqb x y then 1 else 0) + count x l'
  end.

Fixpoint mem (x : A) (l : list A) : bool :=
  match l with
  | [] => false
  | y :: l' => eqb x y || mem x l'
  end.

(** The distinct values, in the order of their first occurrence (the order
    in which the hash table of [value_counts] meets them). *)
Fixpoint unique_acc (seen : list A) (l : list A) : list A :=
  match l with
  | [] => []
  | x :: l' =>
      if mem x seen then unique_acc seen l'
      else x :: unique_acc (x :: seen) l'
  end.

Definition unique (l : list A) : list A := unique_acc [] l.

Definition max_count (l : list A) : nat :=
  fold_right (fun x m => Nat.max (count x l) m) 0 l.

Definition most_frequent (l : list A) : list A :=
  filter (fun x => count x l =? max_count l) (unique l).

Fixpoint insert_sorted (x : A) (l : list A) : list A :=
  match l with
  | [] => [x]
  | y :: l' => if leb x y then x :: y :: l' else y :: insert_sorted x l'
  end.

Definition sort (l : list A) : list A := fold_right insert_sorted [] l.

(** [Series.mode()]: "the mode(s) of the Series in sorted order". *)
Definition modes (l : list A) : list A := sort (most_frequent l).

(** The head of a list bounds it from below. *)
Definition head_least (l : list A) : Prop :=
  match l with
  | [] => True
  | y :: _ => forall w, In w l -> leb y w = true
  end.
End Modes.

Arguments count {A} eqb x l.
Arguments mem {A} eqb x l.
Arguments unique_acc {A} eqb seen l.
Arguments unique {A} eqb l.
Arguments max_count {A} eqb l.
Arguments most_frequent {A} eqb l.
Arguments insert_sorted {A} leb x l.
Arguments sort {A} leb l.
Arguments modes {A} eqb leb l.
Arguments head_least {A} leb l.

Module Cleaner.

(** ** Data model: a parsed CSV as pandas holds it *)

(** A column is a [float64] Series (numbers, [nan] for a missing cell) or an
    [object] Series (strings, missing cells likewise). *)
Inductive Series : Type :=
| Float64 (values : list (option Q))
| Object (values : list (option string)).

(** A frame is the ordered sequence of its labelled columns. *)
Definition DataFrame : Type := list (string * Series).

Inductive scalar : Type :=
| PyFloat (x : option Q)      (* [PyFloat None] is [nan] *)
| PyStr (s : string).

Inductive Method : Type := Mean | Median | Mode.

Inductive exn : Type := TypeError | KeyError | NameError.

Inductive Result (A : Type) : Type :=
| Ok (a : A)
| Raise (e : exn).
Arguments Ok {A} a.
Arguments Raise {A} e.

(** ** Series operations *)

Definition present {A : Type} (l : list (option A)) : list A :=
  flat_map (fun c => match c with Some v => [v] | None => [] end) l.

Definition isnull {A : Type} (c : option A) : bool :=
  match c with Some _ => false | None => true end.

Definition count_null {A : Type} (l : list (option A)) : nat :=
  List.length (filter isnull l).

(** [s.isnull().sum()] *)
Definition isnull_sum (s : Series) : nat :=
  match s with
  | Float64 l => count_null l
  | Object l => count_null l
  end.

(** [pd.api.types.is_numeric_dtype(s)] *)
Definition is_numeric_dtype (s : Series) : bool :=
  match s with
  | Float64 _ => true
  | Object _ => false
  end.

Definition Qsum (l : list Q) : Q := fold_right Qplus (0#1)%Q l.

Definition Qlen (l : list Q) : Q := inject_Z (Z.of_nat (List.length l)).

(** [nanmean]: the sum of the present values over their number, [nan] when
    there is none. *)
Definition nanmean (l : list (option Q)) : option Q :=
  match present l with
  | [] => None
  | vs => Some (Qred (Qsum vs / Qlen vs))
  end.

(** [nanmedian]: the middle of the sorted present values, the mean of the
    two middle ones when their number is even, [nan] when there is none. *)
Definition nanmedian (l : list (option Q)) : option Q :=
  match sort Qle_bool (present l) with
  | [] => None
  | vs =>
      let n := List.length vs in
      if Nat.even n
      then Some (Qred ((nth (n / 2 - 1) vs (0#1)%Q + nth (n / 2) vs (0#1)%Q) / (2#1)))
      else Some (Qred (nth (n / 2) vs (0#1)%Q))
  end.

(** [s.mean()]; on strings pandas raises [TypeError]. *)
Definition mean (s : Series) : Result scalar :=
  match s with
  | Float64 l => Ok (PyFloat (nanmean l))
  | Object _ => Raise TypeError
  end.

(** [s.median()] *)
Definition median (s : Series) : Result scalar :=
  match s with
  | Float64 l => Ok (PyFloat (nanmedian l))
  | Object _ => Raise TypeError
  end.

(** [s.mode()], with [dropna=True]: a Series of the same dtype. *)
Definition mode (s : Series) : Series :=
  match s with
  | Float64 l => Float64 (map Some (modes Qeq_bool Qle_bool (present l)))
  | Object l => Object (map Some (modes String.eqb String.leb (present l)))
  end.

(** [s.empty] *)
Definition empty (s : Series) : bool :=
  match s with
  | Float64 l => match l with [] => true | _ => false end
  | Object l => match l with [] => true | _ => false end
  end.

(** [s[0]] on a Series with the default index. *)
Definition getitem0 (s : Series) : Result scalar :=
  match s with
  | Float64 [] => Raise KeyError
  | Float64 (c :: _) => Ok (PyFloat c)
  | Object [] => Raise KeyError
  | Object (None :: _) => Ok (PyFloat None)
  | Object (Some x :: _) => Ok (PyStr x)
  end.

Definition fill {A : Type} (v : A) (c : option A) : option A :=
  match c with Some x => Some x | None => Some v end.

(** [s.fillna(value)]: every missing cell becomes [value]; filling with
    [nan] changes nothing.  The loop below only ever fills a column with a
    value of its own dtype; a value of the other dtype (which makes pandas
    change the dtype of the column) is left out of the model. *)
Definition fillna (value : scalar) (s : Series) : Series :=
  match value, s with
  | PyFloat (Some q), Float64 l => Float64 (map (fill q) l)
  | PyStr x, Object l => Object (map (fill x) l)
  | _, _ => s
  end.

(** ** The session store: frames are objects, variables hold references *)

Definition ref : Type := nat.
Definition store : Type := list DataFrame.

Definition M (A : Type) : Type := store -> Result (A * store).

Definition ret {A : Type} (a : A) : M A := fun h => Ok (a, h).

Definition bind {A B : Type} (m : M A) (k : A -> M B) : M B :=
  fun h => match m h with
           | Ok (a, h') => k a h'
           | Raise e => Raise e
           end.

Definition raise {A : Type} (e : exn) : M A := fun _ => Raise e.

Definition lift {A : Type} (r : Result A) : M A :=
  fun h => match r with
           | Ok a => Ok (a, h)
           | Raise e => Raise e
           end.

Notation "x <- m ;; k" := (bind m (fun x => k))
  (at level 61, m at next level, right associativity).
Notation "m ;;; k" := (bind m (fun _ => k))
  (at level 61, right associativity).

Fixpoint update {A : Type} (n : nat) (x : A) (l : list A) : list A :=
  match l, n with
  | [], _ => []
  | _ :: l', O => x :: l'
  | y :: l', S n' => y :: update n' x l'
  end.

(** Reading the object a variable refers to. *)
Definition deref (r : ref) : M DataFrame :=
  fun h => match nth_error h r with
           | Some d => Ok (d, h)
           | None => Raise NameError
           end.

(** Overwriting an object in place: every holder of [r] sees the change. *)
Definition assign (r : ref) (d : DataFrame) : M unit :=
  fun h => if r <? List.length h then Ok (tt, update r d h) else Raise NameError.

(** A new object, under a reference no variable holds yet. *)
Definition new (d : DataFrame) : M ref :=
  fun h => Ok (List.length h, h ++ [d]).

(** [df.copy()]: a new object with a copy of the data. *)
Definition copy (df : ref) : M ref :=
  d <- deref df ;; new d.

(** [df.columns] *)
Definition columns (d : DataFrame) : list string := map fst d.

(** [df.select_dtypes(include=[np.number])] *)
Definition select_dtypes_number (d : DataFrame) : DataFrame :=
  filter (fun c => is_numeric_dtype (snd c)) d.

(** The column labelled [col]. *)
Fixpoint lookup (col : string) (d : DataFrame) : option Series :=
  match d with
  | [] => None
  | (name, s) :: d' => if String.eqb col name then Some s else lookup col d'
  end.

(** [df[col]] *)
Definition getitem (df : ref) (col : string) : M Series :=
  d <- deref df ;;
  match lookup col d with
  | Some s => ret s
  | None => raise KeyError
  end.

Fixpoint replace_column (col : string) (f : Series -> Series) (d : DataFrame)
  : DataFrame :=
  match d with
  | [] => []
  | (name, s) :: d' =>
      if String.eqb col name then (name, f s) :: d'
      else (name, s) :: replace_column col f d'
  end.

(** [df[col].fillna(value, inplace=True)]: the column of the frame object
    itself is overwritten. *)
Definition fillna_inplace (df : ref) (col : string) (value : scalar) : M unit :=
  d <- deref df ;;
  assign df (replace_column col (fillna value) d).

Fixpoint for_each {A : Type} (l : list A) (body : A -> M unit) : M unit :=
  match l with
  | [] => ret tt
  | x :: l' => body x ;;; for_each l' body
  end.

(** [df.isnull().sum().sum()] *)
Definition isnull_sum_sum (d : DataFrame) : nat :=
  fold_right (fun c n => isnull_sum (snd c) + n) 0 d.

(** ** The "Clean Data" block (app.py, lines 75-112) *)

Definition Method_eqb (a b : Method) : bool :=
  match a, b with
  | Mean, Mean | Median, Median | Mode, Mode => true
  | _, _ => false
  end.

Inductive message : Type :=
| success                                (* "All missing values have been filled!" *)
| warning (remaining_missing : nat).     (* "There are still ... missing values ..." *)

(** Lines 108-112: what the user is told. *)
Definition message_of (remaining_missing : nat) : message :=
  if remaining_missing =? 0 then success else warning remaining_missing.

(** Lines 91-98: the value to fill [cleaned_df[col]] with, [None] for
    "leave the column alone". *)
Definition filled_value_for (fill_method : Method) (s : Series)
  : M (option scalar) :=
  if Method_eqb fill_method Mean && is_numeric_dtype s then
    v <- lift (mean s) ;; ret (Some v)
  else if Method_eqb fill_method Median && is_numeric_dtype s then
    v <- lift (median s) ;; ret (Some v)
  else if Method_eqb fill_method Mode then
    if negb (empty (mode s)) then v <- lift (getitem0 (mode s)) ;; ret (Some v)
    else ret None
  else ret None.

(** Lines 80-86: the labels the loop goes through. *)
Definition cols_to_process (exclude_cols : bool) (cleaned_df : DataFrame)
  : list string :=
  if exclude_cols then
    let numeric_cols := columns (select_dtypes_number cleaned_df) in
    numeric_cols
  else
    columns cleaned_df.

(** Lines 89-101: one turn of the loop. *)
Definition loop_body (fill_method : Method) (cleaned_df : ref) (col : string)
  : M unit :=
  s <- getitem cleaned_df col ;;
  if 0 <? isnull_sum s then
    filled_value <- filled_value_for fill_method s ;;
    match filled_value with
    | Some v => fillna_inplace cleaned_df col v
    | None => ret tt
    end
  else ret tt.

(** Lines 77-112: the copy, the loop, the count of cells still missing and
    the message.  The result is the reference of [cleaned_df], the count
    and the message. *)
Definition Clean_Data (fill_method : Method) (exclude_cols : bool) (df : ref)
  : M (ref * nat * message) :=
  cleaned_df <- copy df ;;
  cols <- (d <- deref cleaned_df ;; ret (cols_to_process exclude_cols d)) ;;
  for_each cols (loop_body fill_method cleaned_df) ;;;
  d <- deref cleaned_df ;;
  let remaining_missing := isnull_sum_sum d in
  ret (cleaned_df, remaining_missing, message_of remaining_missing).

(** The engine as a function of the uploaded table: the block run in a
    session whose only object is [df]; the cleaned table is read back from
    the store. *)
Definition clean_data (fill_method : Method) (exclude_cols : bool) (df : DataFrame)
  : Result (DataFrame * nat * message) :=
  match Clean_Data fill_method exclude_cols 0 [df] with
  | Ok ((cleaned_df, remaining_missing, msg), h) =>
      match nth_error h cleaned_df with
      | Some d => Ok (d, remaining_missing, msg)
      | None => Raise NameError
      end
  | Raise e => Raise e
  end.

(** ** The cleaned table, column by column *)

(** A column is processed when the option is off or its dtype is a number. *)
Definition in_scope (exclude_cols : bool) (s : Series) : bool :=
  negb exclude_cols || is_numeric_dtype s.

(** The column after its turn of the loop. *)
Definition impute_column (fill_method : Method) (s : Series) : Series :=
  match s with
  | Float64 l =>
      match match fill_method with
            | Mean => nanmean l
            | Median => nanmedian l
            | Mode => hd_error (modes Qeq_bool Qle_bool (present l))
            end with
      | Some v => Float64 (map (fill v) l)
      | None => s
      end
  | Object l =>
      match fill_method with
      | Mode =>
          match hd_error (modes String.eqb String.leb (present l)) with
          | Some v => Object (map (fill v) l)
          | None => s
          end
      | _ => s
      end
  end.

(** The frame after the loop has gone through [cols]. *)
Definition loop_result (fill_method : Method) (cols : list string) (d : DataFrame)
  : DataFrame :=
  fold_left (fun d col => replace_column col (impute_column fill_method) d) cols d.

Definition impute (fill_method : Method) (exclude_cols : bool) (d : DataFrame)
  : DataFrame :=
  map (fun c => if in_scope exclude_cols (snd c)
                then (fst c, impute_column fill_method (snd c)) else c) d.

(** A well-formed table: [read_csv] makes the labels distinct. *)
Definition well_formed (d : DataFrame) : Prop := NoDup (columns d).

(** The example of the specification. *)
Definition scenario_table : DataFrame :=
  [("Age"%string, Float64 [Some (28#1)%Q; None; Some (30#1)%Q]);
   ("Salary"%string, Float64 [None; Some (45000#1)%Q; Some (50000#1)%Q])].

Definition scenario_cleaned : DataFrame :=
  [("Age"%string, Float64 [Some (28#1)%Q; Some (29#1)%Q; Some (30#1)%Q]);
   ("Salary"%string,
    Float64 [Some (47500#1)%Q; Some (45000#1)%Q; Some (50000#1)%Q])].

Definition tie_table : DataFrame :=
  [("Name"%string,
    Object [Some "b"%string; Some "a"%string; None; Some "b"%string;
            Some "a"%string])].

Definition mixed_table : DataFrame :=
  [("Name"%string, Object [Some "Bav1"%string; None; Some "Kumar"%string]);
   ("Age"%string, Float64 [Some (28#1)%Q; None; Some (30#1)%Q])].

(** ** Notions of the specification *)

(** The number of present cells of a column. *)
Definition n_present (s : Series) : nat :=
  match s with
  | Float64 l => List.length (present l)
  | Object l => List.length (present l)
  end.

(** "Eligible" column: numeric under Mean and Median, with at least one
    present value under Mode. *)
Definition eligible (fill_method : Method) (s : Series) : Prop :=
  match fill_method with
  | Mean | Median => is_numeric_dtype s = true
  | Mode => 0 < n_present s
  end.

(** [v] is a most frequent value of [l], and the least of the most frequent
    ones. *)
Definition least_mode {A : Type} (eqb leb : A -> A -> bool) (l : list A) (v : A)
  : Prop :=
  In v l /\
  (forall w, In w l -> count eqb w l <= count eqb v l) /\
  (forall w, In w l -> count eqb w l = count eqb v l -> leb v w = true).

(** The tie-break of the specification: among the most frequent values, the
    one met first in row order. *)
Definition first_most_frequent {A : Type} (eqb : A -> A -> bool)
    (l : list (option A)) : option A :=
  hd_error (most_frequent eqb (present l)).

(** ** The sidebar (lines 38-42) *)

(** [df.isnull().sum()]: the number of missing cells of each column. *)
Definition missing_values (d : DataFrame) : list (string * nat) :=
  map (fun c => (fst c, isnull_sum (snd c))) d.

(** The lines the sidebar writes: the columns with a missing cell. *)
Definition missing_report (d : DataFrame) : list (string * nat) :=
  filter (fun line => 0 <? snd line) (missing_values d).

(** ** Comparing a column before and after *)

(** As many cells, and every cell that was present is unchanged. *)
Definition keeps_present {A : Type} (l l' : list (option A)) : Prop :=
  List.length l' = List.length l /\
  forall r x, nth_error l r = Some (Some x) -> nth_error l' r = Some (Some x).

(** The cells of a column as values, whatever its dtype. *)
Definition cells (s : Series) : list (option scalar) :=
  match s with
  | Float64 l => map (option_map (fun q => PyFloat (Some q))) l
  | Object l => map (option_map PyStr) l
  end.

(** Every present number of the column lies between [lo] and [hi]. *)
Definition within (lo hi : Q) (l : list (option Q)) : Prop :=
  forall v, In v (present l) -> (lo <= v)%Q /\ (v <= hi)%Q.

End Cleaner.

(** * The cleaner over IEEE doubles

    What a [float64] column holds and what [mean()] returns are doubles:
    the mean is a rounded quotient, it can be [inf] (overflow) or [nan]
    ([inf] and [-inf] in one column).  The module below embeds the same
    block with [float64] cells as doubles, a missing cell being [nan].
    The block calls [df.copy()] and then works on the copy only; here the
    copy is the state the loop threads. *)

Module Cleaner64.
Import Cleaner.

(** ** Doubles

    The binary64 format and its operations, rounding to nearest even, as
    the standard library specifies them. *)

Definition prec : Z := 53.
Definition emax : Z := 1024.

Definition float : Type := spec_float.

Definition nan : float := S754_nan.
Definition zero : float := S754_zero false.

Definition is_nan (x : float) : bool :=
  match x with
  | S754_nan => true
  | _ => false
  end.

(** The double nearest to an integer. *)
Definition of_int (z : Z) : float :=
  match z with
  | Z0 => zero
  | Zpos _ => binary_normalize prec emax z 0 false
  | Zneg _ => binary_normalize prec emax z 0 true
  end.

Definition add : float -> float -> float := SFadd prec emax.
Definition div : float -> float -> float := SFdiv prec emax.
Definition eqb : float -> float -> bool := SFeqb.
Definition leb : float -> float -> bool := SFleb.

(** ** Data model *)

Inductive Series : Type :=
| Float64 (values : list float)
| Object (values : list (option string)).

Definition DataFrame : Type := list (string * Series).

Inductive scalar : Type :=
| PyFloat (x : float)
| PyStr (s : string).

(** ** Series operations *)

Definition notna (l : list float) : list float :=
  filter (fun x => negb (is_nan x)) l.

(** [s.isnull().sum()] *)
Definition isnull_sum (s : Series) : nat :=
  match s with
  | Float64 l => List.length (filter is_nan l)
  | Object l => count_null l
  end.

(** [pd.api.types.is_numeric_dtype(s)] *)
Definition is_numeric_dtype (s : Series) : bool :=
  match s with
  | Float64 _ => true
  | Object _ => false
  end.

(** The count of present cells as [nanops] takes it, a [float64]. *)
Definition float_of_nat (n : nat) : float := of_int (Z.of_nat n).

Section Sum.
(** [ndarray.sum()] on doubles.  numpy adds in an order of its own
    (pairwise, in blocks), which its documentation does not fix; the order
    matters to the rounding only. *)
Variable np_sum : list float -> float.

(** [nanops.nanmean]: the missing cells enter the sum as 0.0, the sum is
    divided by the number of present cells; [nan] when there is none. *)
Definition nanmean (l : list float) : float :=
  let count := List.length (notna l) in
  if count =? 0 then nan
  else div (np_sum (map (fun x => if is_nan x then zero else x) l))
           (float_of_nat count).

(** [nanmedian]: the middle of the sorted present values, half the sum of
    the two middle ones when their number is even. *)
Definition nanmedian (l : list float) : float :=
  match sort leb (notna l) with
  | [] => nan
  | vs =>
      let n := List.length vs in
      if Nat.even n
      then div (add (nth (n / 2 - 1) vs nan) (nth (n / 2) vs nan)) (of_int 2)
      else nth (n / 2) vs nan
  end.

(** [s.mean()] *)
Definition mean (s : Series) : Result scalar :=
  match s with
  | Float64 l => Ok (PyFloat (nanmean l))
  | Object _ => Raise TypeError
  end.

(** [s.median()] *)
Definition median (s : Series) : Result scalar :=
  match s with
  | Float64 l => Ok (PyFloat (nanmedian l))
  | Object _ => Raise TypeError
  end.

(** [s.mode()], with [dropna=True] *)
Definition mode (s : Series) : Series :=
  match s with
  | Float64 l => Float64 (modes eqb leb (notna l))
  | Object l => Object (map Some (modes String.eqb String.leb (present l)))
  end.

(** [s.empty] *)
Definition empty (s : Series) : bool :=
  match s with
  | Float64 l => match l with [] => true | _ => false end
  | Object l => match l with [] => true | _ => false end
  end.

(** [s[0]] on a Series with the default index. *)
Definition getitem0 (s : Series) : Result scalar :=
  match s with
  | Float64 [] => Raise KeyError
  | Float64 (x :: _) => Ok (PyFloat x)
  | Object [] => Raise KeyError
  | Object (None :: _) => Ok (PyFloat nan)
  | Object (Some x :: _) => Ok (PyStr x)
  end.

(** [s.fillna(value)]: every missing cell becomes [value]; filling with
    [nan] changes nothing.  As in the loop, the value has the dtype of the
    column. *)
Definition fillna (value : scalar) (s : Series) : Series :=
  match value, s with
  | PyFloat v, Float64 l =>
      if is_nan v then s
      else Float64 (map (fun x => if is_nan x then v else x) l)
  | PyStr x, Object l => Object (map (fill x) l)
  | _, _ => s
  end.

(** ** The frame *)

Definition columns (d : DataFrame) : list string := map fst d.

Definition select_dtypes_number (d : DataFrame) : DataFrame :=
  filter (fun c => is_numeric_dtype (snd c)) d.

Fixpoint lookup (col : string) (d : DataFrame) : option Series :=
  match d with
  | [] => None
  | (name, s) :: d' => if String.eqb col name then Some s else lookup col d'
  end.

Fixpoint replace_column (col : string) (f : Series -> Series) (d : DataFrame)
  : DataFrame :=
  match d with
  | [] => []
  | (name, s) :: d' =>
      if String.eqb col name then (name, f s) :: d'
      else (name, s) :: replace_column col f d'
  end.

Definition isnull_sum_sum (d : DataFrame) : nat :=
  fold_right (fun c n => isnull_sum (snd c) + n) 0 d.

(** ** The "Clean Data" block (app.py, lines 75-112) *)

(** Lines 91-98. *)
Definition filled_value_for (fill_method : Method) (s : Series)
  : Result (option scalar) :=
  if Method_eqb fill_method Mean && is_numeric_dtype s then
    match mean s with Ok v => Ok (Some v) | Raise e => Raise e end
  else if Method_eqb fill_method Median && is_numeric_dtype s then
    match median s with Ok v => Ok (Some v) | Raise e => Raise e end
  else if Method_eqb fill_method Mode then
    if negb (empty (mode s)) then
      match getitem0 (mode s) with Ok v => Ok (Some v) | Raise e => Raise e end
    else Ok None
  else Ok None.

(** The column after its turn of the loop (lines 90-101). *)
Definition column_after (fill_method : Method) (s : Series) : Series :=
  if 0 <? isnull_sum s then
    match filled_value_for fill_method s with
    | Ok (Some v) => fillna v s
    | _ => s
    end
  else s.

(** Lines 80-86. *)
Definition cols_to_process (exclude_cols : bool) (cleaned_df : DataFrame)
  : list string :=
  if exclude_cols then
    let numeric_cols := columns (select_dtypes_number cleaned_df) in
    numeric_cols
  else
    columns cleaned_df.

(** Lines 89-101: one turn of the loop, from the frame before it to the
    frame after it. *)
Definition loop_body (fill_method : Method) (cleaned_df : DataFrame)
    (col : string) : Result DataFrame :=
  match lookup col cleaned_df with
  | None => Raise KeyError
  | Some s =>
      if 0 <? isnull_sum s then
        match filled_value_for fill_method s with
        | Raise e => Raise e
        | Ok (Some v) => Ok (replace_column col (fillna v) cleaned_df)
        | Ok None => Ok cleaned_df
        end
      else Ok cleaned_df
  end.

Fixpoint for_each (cols : list string) (fill_method : Method)
    (cleaned_df : DataFrame) : Result DataFrame :=
  match cols with
  | [] => Ok cleaned_df
  | col :: cols' =>
      match loop_body fill_method cleaned_df col with
      | Ok d => for_each cols' fill_method d
      | Raise e => Raise e
      end
  end.

(** Lines 77-112: the cleaned frame, the count of cells still missing and
    the message. *)
Definition clean_data (fill_method : Method) (exclude_cols : bool)
    (df : DataFrame) : Result (DataFrame * nat * message) :=
  let cleaned_df := df in
  match for_each (cols_to_process exclude_cols cleaned_df) fill_method
          cleaned_df with
  | Ok d =>
      let remaining_missing := isnull_sum_sum d in
      Ok (d, remaining_missing, message_of remaining_missing)
  | Raise e => Raise e
  end.
End Sum.

(** Adding from left to right. *)
Definition left_to_right (l : list float) : float :=
  fold_left add l zero.

Definition well_formed (d : DataFrame) : Prop := NoDup (columns d).

(** ** Notions of the specification *)

(** The number a double stands for; none for [inf], [-inf] and [nan]. *)
Definition exact_value (x : float) : option Q :=
  match x with
  | S754_zero _ => Some (0#1)%Q
  | S754_finite sign m e =>
      Some (inject_Z (if sign then Z.neg m else Z.pos m) * Qpower (2#1) e)%Q
  | _ => None
  end.

(** The arithmetic mean of the present values, as a number. *)
Definition arithmetic_mean (l : list float) : option Q :=
  let vs := present (map exact_value (notna l)) in
  if (List.length vs =? List.length (notna l)) && (0 <? List.length vs)
  then Some (Qred (Qsum vs / Qlen vs)%Q)
  else None.

(** The example of the specification. *)
Definition scenario_table : DataFrame :=
  [("Age"%string, Float64 [of_int 28; nan; of_int 30]);
   ("Salary"%string, Float64 [nan; of_int 45000; of_int 50000])].

Definition scenario_cleaned : DataFrame :=
  [("Age"%string, Float64 [of_int 28; of_int 29; of_int 30]);
   ("Salary"%string, Float64 [of_int 47500; of_int 45000; of_int 50000])].

Definition thirds_table : DataFrame :=
  [("x"%string, Float64 [of_int 1; of_int 2; nan; of_int 2])].

(** 1.6666666666666667, in hexadecimal 0x1.aaaaaaaaaaaabp+0. *)
Definition one_point_6666666666666667 : float :=
  S754_finite false 7505999378950827 (-52).

End Cleaner64.

Module Inventory.

Local Open Scope string_scope.

(** ** Constants (app.py, lines 19-25) *)

Definition CATEGORIES : list string :=
  ["Electronics"; "Clothing"; "Grocery"; "Stationery"; "Sports"].

Definition PRODUCT_NAMES : list string :=
  ["Phone"; "T-Shirt"; "Bread"; "Notebook"; "Football";
   "Laptop"; "Jeans"; "Milk"; "Pen"; "Tennis Ball";
   "Tablet"; "Jacket"; "Eggs"; "Marker"; "Cricket Bat";
   "Headphones"; "Shoes"; "Butter"; "Stapler"; "Basketball"].

(** ** Data model *)

(** One inventory record: the dict built by [generate_sample_data] and by
    [add_product], with its six keys. *)
Record Product : Type := mkProduct {
  ProductID : string;
  Name : string;
  Category : string;
  QuantityAvailable : Z;
  ReorderLevel : Z;
  Status : string
}.

(** [st.session_state] once [initialize_data] has run. *)
Record session_state : Type := mkSession {
  data : list Product;
  next_id : nat
}.

(** What a handler shows or asks of the framework. *)
Inductive event : Type :=
| st_error (msg : string)
| st_success (msg : string)
| st_rerun.

(** ** Formatting of identifiers *)

Fixpoint zeros (k : nat) (s : string) : string :=
  match k with
  | O => s
  | S k' => String "0" (zeros k' s)
  end.

(** [str(n)] for a non-negative int. *)
Definition str (n : nat) : string := NilEmpty.string_of_uint (Nat.to_uint n).

(** The format spec [03d]: decimal digits, zero-filled on the left to a
    width of at least 3. *)
Definition format_03d (n : nat) : string :=
  let digits := str n in zeros (3 - String.length digits) digits.

(** [f"P{i:03d}"] *)
Definition product_id_of (i : nat) : string := "P" ++ format_03d i.

(** Reading an identifier back: the number after the "P". *)
Definition read_id (s : string) : option nat :=
  match s with
  | String "P" digits => option_map Nat.of_uint (NilEmpty.uint_of_string digits)
  | _ => None
  end.

(** ** Handlers *)

Section Random.
(** The generator of Python's [random] module: its state, and the two
    draws the application makes. *)
Variable rng : Type.
Variable choice : list string -> rng -> string * rng.
Variable randint : Z -> Z -> rng -> Z * rng.

(** One turn of the loop of [generate_sample_data] (lines 34-46). *)
Definition sample_item (i : nat) (acc : list Product * rng)
  : list Product * rng :=
  let '(data, g) := acc in
  let '(category, g) := choice CATEGORIES g in
  let '(base, g) := choice PRODUCT_NAMES g in
  let '(suffix, g) := randint 100 999 g in
  let name := base ++ "-" ++ NilEmpty.string_of_int (Z.to_int suffix) in
  let '(quantity, g) := randint 0 100 g in
  let '(reorder_level, g) := randint 5 30 g in
  ((data ++ [ {| ProductID := product_id_of i;
                Name := name;
                Category := category;
                QuantityAvailable := quantity;
                ReorderLevel := reorder_level;
                Status := if (quantity <=? reorder_level)%Z
                          then "Low Stock" else "In Stock" |} ])%list,
   g).

(** [generate_sample_data(num_items)]: [i] runs over
    [range(1, num_items + 1)]. *)
Definition generate_sample_data (num_items : nat) (g : rng)
  : list Product * rng :=
  fold_left (fun acc i => sample_item i acc) (seq 1 num_items) ([], g).

(** Default of the parameter [num_items]. *)
Definition default_num_items : nat := 20.

(** [initialize_data] on a fresh session. *)
Definition initialize_data (g : rng) : session_state * rng :=
  let '(d, g) := generate_sample_data default_num_items g in
  ({| data := d; next_id := List.length d + 1 |}, g).

(** The "Generate Sample Data" button (lines 96-99). *)
Definition on_generate_sample_data (st : session_state) (g : rng)
  : session_state * rng * list event :=
  let '(d, g) := generate_sample_data default_num_items g in
  ({| data := d; next_id := List.length d + 1 |}, g, [st_rerun]).
End Random.

(** The "Clear All Data" button (lines 101-104). *)
Definition on_clear_all_data (st : session_state) : session_state * list event :=
  ({| data := []; next_id := 1 |}, [st_rerun]).

(** [add_product] (lines 106-124); [not name] is true of the empty string. *)
Definition add_product (product_id name category : string)
    (quantity reorder_level : Z) (st : session_state)
  : session_state * list event :=
  if String.eqb name "" then
    (st, [st_error "Please enter a product name"])
  else
    let new_product :=
      {| ProductID := product_id;
         Name := name;
         Category := category;
         QuantityAvailable := quantity;
         ReorderLevel := reorder_level;
         Status := if (quantity <=? reorder_level)%Z
                   then "Low Stock" else "In Stock" |} in
    ({| data := (data st ++ [new_product])%list; next_id := next_id st + 1 |},
     [st_success ("Product '" ++ name ++ "' added successfully!"); st_rerun]).

(** Submitting the "Add New Product" form (lines 66-92): the identifier
    field is disabled and shows [P{next_id:03d}]. *)
Definition on_add_product_form (name category : string)
    (quantity_available reorder_level : Z) (st : session_state)
  : session_state * list event :=
  let product_id := product_id_of (next_id st) in
  add_product product_id name category quantity_available reorder_level st.

(** ** Notions of the specification *)

(** A decimal digit as a character. *)
Definition digit (d : nat) : ascii := ascii_of_nat (48 + d).

(** The identifier of the specification for a number below 1000: "P", then
    the hundreds, the tens and the units, so zero-padded to three digits. *)
Definition three_digit_id (i : nat) : string :=
  String "P"
    (String (digit (i / 100))
       (String (digit (i / 10 mod 10))
          (String (digit (i mod 10)) EmptyString))).

(** The status a record must carry: "Low Stock" if quantity-available is at
    most reorder-level, "In Stock" otherwise. *)
Definition status_derived (p : Product) : Prop :=
  ((QuantityAvailable p <= ReorderLevel p)%Z -> Status p = "Low Stock") /\
  ((ReorderLevel p < QuantityAvailable p)%Z -> Status p = "In Stock").

(** The sessions the application can be in: a fresh one after
    [initialize_data], then any sequence of form submissions and button
    presses. *)
Inductive reachable (rng : Type)
    (choice : list string -> rng -> string * rng)
    (randint : Z -> Z -> rng -> Z * rng) : session_state -> Prop :=
| reach_initialize g :
    reachable rng choice randint (fst (initialize_data rng choice randint g))
| reach_add st name category quantity reorder_level :
    reachable rng choice randint st ->
    reachable rng choice randint
      (fst (on_add_product_form name category quantity reorder_level st))
| reach_generate st g :
    reachable rng choice randint st ->
    reachable rng choice randint
      (fst (fst (on_generate_sample_data rng choice randint st g)))
| reach_clear st :
    reachable rng choice randint st ->
    reachable rng choice randint (fst (on_clear_all_data st)).

(** A generator to run the handlers with: every draw is the first of its
    choices. *)
Definition first_choice (l : list string) (g : unit) : string * unit :=
  (hd "" l, g).
Definition lowest_int (a b : Z) (g : unit) : Z * unit := (a, g).

(** ** The dashboard (lines 129-259) *)

(** What rendering can raise: Python's division, and [st.progress] on a
    value outside [0.0, 1.0]. *)
Inductive exn : Type := ZeroDivisionError | StreamlitAPIException.

Inductive rendered (A : Type) : Type :=
| Shown (a : A)
| Raised (e : exn).
Arguments Shown {A} a.
Arguments Raised {A} e.

(** Arithmetic of an [int64] column: sums wrap around. *)
Definition wrap64 (z : Z) : Z := ((z + 2 ^ 63) mod 2 ^ 64 - 2 ^ 63)%Z.

Definition Zsum (l : list Z) : Z := fold_right Z.add 0%Z l.

(** The four metrics of [render_summary_cards] (lines 155-166). *)
Record summary : Type := mkSummary {
  total_items : nat;
  total_quantity : Z;
  low_stock_count : nat;
  categories_count : nat
}.

Definition render_summary_cards (df : list Product) : summary :=
  {| total_items := List.length df;
     total_quantity := wrap64 (Zsum (map QuantityAvailable df));
     low_stock_count :=
       List.length
         (filter (fun p => (QuantityAvailable p <=? ReorderLevel p)%Z) df);
     categories_count := List.length (unique String.eqb (map Category df)) |}.

(** [x.isin(values)] on one cell. *)
Definition isin (x : string) (values : list string) : bool :=
  existsb (String.eqb x) values.

(** The rows [render_inventory_table] displays (lines 189-192), for the
    selections of the two multiselects. *)
Definition filtered_df (category_filter status_filter : list string)
    (df : list Product) : list Product :=
  filter (fun p => isin (Category p) category_filter
                   && isin (Status p) status_filter) df.

(** The selections the multiselects start with (lines 176-186). *)
Definition default_category_filter (df : list Product) : list string :=
  unique String.eqb (map Category df).

Definition default_status_filter : list string := ["In Stock"; "Low Stock"].

(** [df.groupby('Category')['QuantityAvailable'].sum().reset_index()]
    (lines 211 and 224): one row per category present, the keys sorted. *)
Definition groupby_category_sum (df : list Product) : list (string * Z) :=
  map (fun k =>
         (k, wrap64 (Zsum (map QuantityAvailable
                             (filter (fun p => String.eqb (Category p) k) df)))))
      (sort String.leb (unique String.eqb (map Category df))).

(** One card of the alerts tab (lines 250-257). *)
Record alert : Type := mkAlert {
  alert_column : nat;
  alert_title : string;
  alert_progress : Q;
  alert_text : string;
  alert_caption : string
}.

(** [a / b] on two ints. *)
Definition true_div (a b : Z) : rendered Q :=
  if (b =? 0)%Z then Raised ZeroDivisionError
  else Shown (inject_Z a / inject_Z b)%Q.

(** [st.progress(value)] accepts a float between 0.0 and 1.0. *)
Definition st_progress (value : Q) : rendered Q :=
  if Qle_bool (0#1) value && Qle_bool value (1#1) then Shown value
  else Raised StreamlitAPIException.

Definition str_int (z : Z) : string := NilEmpty.string_of_int (Z.to_int z).

(** The loop of lines 249-257 over [enumerate(low_stock.iterrows())], from
    index [idx] on. *)
Fixpoint alert_cards (idx : nat) (rows : list Product)
  : rendered (list alert) :=
  match rows with
  | [] => Shown []
  | row :: rows' =>
      match true_div (QuantityAvailable row) (ReorderLevel row) with
      | Raised e => Raised e
      | Shown ratio =>
          match st_progress ratio with
          | Raised e => Raised e
          | Shown value =>
              match alert_cards (S idx) rows' with
              | Raised e => Raised e
              | Shown cards =>
                  Shown
                    ({| alert_column := idx mod 3;
                        alert_title :=
                          "**" ++ Name row ++ "** (" ++ ProductID row ++ ")";
                        alert_progress := value;
                        alert_text :=
                          str_int (QuantityAvailable row) ++ "/"
                          ++ str_int (ReorderLevel row) ++ " units remaining";
                        alert_caption := "Category: " ++ Category row |}
                       :: cards)
              end
          end
      end
  end.

Inductive alerts_view : Type :=
| alerts (cards : list alert)
| all_stocked.       (* "All products are sufficiently stocked!" *)

(** [render_alerts_section] (lines 239-259). *)
Definition render_alerts_section (df : list Product) : rendered alerts_view :=
  let low_stock := filter (fun p => String.eqb (Status p) "Low Stock") df in
  match low_stock with
  | [] => Shown all_stocked
  | _ :: _ =>
      match alert_cards 0 low_stock with
      | Shown cards => Shown (alerts cards)
      | Raised e => Raised e
      end
  end.

Inductive dashboard : Type :=
| no_data                 (* "No inventory data available. ..." *)
| panels (cards : summary) (table : list Product)
         (chart : list (string * Z)) (tab3 : alerts_view).

(** [render_dashboard] (lines 129-151), for the selections of the two
    multiselects. *)
Definition render_dashboard (category_filter status_filter : list string)
    (st : session_state) : rendered dashboard :=
  let df := data st in
  match df with
  | [] => Shown no_data
  | _ :: _ =>
      match render_alerts_section df with
      | Shown tab3 =>
          Shown (panels (render_summary_cards df)
                   (filtered_df category_filter status_filter df)
                   (groupby_category_sum df) tab3)
      | Raised e => Raised e
      end
  end.

(** The contract of Python's [random]: [choice] returns a member of a
    non-empty sequence, [randint(a, b)] an int between [a] and [b]. *)
Definition random_contract (rng : Type)
    (choice : list string -> rng -> string * rng)
    (randint : Z -> Z -> rng -> Z * rng) : Prop :=
  (forall l g, l <> [] -> In (fst (choice l g)) l) /\
  (forall a b g, (a <= b)%Z -> (a <= fst (randint a b g) <= b)%Z).

(** The ranges [generate_sample_data] draws from (lines 34-37). *)
Definition sample_ranges (p : Product) : Prop :=
  In (Category p) CATEGORIES /\
  (0 <= QuantityAvailable p <= 100)%Z /\
  (5 <= ReorderLevel p <= 30)%Z.

(** A card the alerts tab can show: a progress value that [st.progress]
    accepts, in one of the three columns. *)
Definition alert_ok (c : alert) : Prop :=
  (0 <= alert_progress c)%Q /\ (alert_progress c <= 1)%Q /\ alert_column c < 3.

(** A fresh session, drawn with the generator above. *)
Definition session0 : session_state :=
  fst (initialize_data unit first_choice lowest_int tt).

End Inventory.

(** * Facts about the most frequent values *)

Section ModesFacts.
Variable A : Type.
Variable eqb : A -> A -> bool.
Variable leb : A -> A -> bool.

Hypothesis eqb_refl : forall x, eqb x x = true.
Hypothesis eqb_sym : forall x y, eqb x y = true -> eqb y x = true.
Hypothesis eqb_trans :
  forall x y z, eqb x y = true -> eqb y z = true -> eqb x z = true.
Hypothesis leb_total : forall x y, leb x y = true \/ leb y x = true.
Hypothesis leb_trans :
  forall x y z, leb x y = true -> leb y z = true -> leb x z = true.
Hypothesis eqb_leb : forall x y, eqb x y = true -> leb x y = true.

Lemma eqb_congr x y z : eqb x y = true -> eqb x z = eqb y z.
Proof.
  intros Hxy. destruct (eqb y z) eqn:Hyz.
  - eauto.
  - destruct (eqb x z) eqn:Hxz; [|reflexivity].
    rewrite <- Hyz. symmetry. eauto.
Qed.

Lemma count_eqb x y l : eqb x y = true -> count eqb x l = count eqb y l.
Proof.
  intros Hxy. induction l as [|z l IH]; simpl; [reflexivity|].
  rewrite (eqb_congr x y z Hxy), IH. reflexivity.
Qed.

Lemma count_le_fold x l l' :
  In x l' ->
  count eqb x l <= fold_right (fun y m => Nat.max (count eqb y l) m) 0 l'.
Proof.
  induction l' as [|y l' IH]; simpl; [tauto|].
  intros [->|Hin]; [lia|]. specialize (IH Hin). lia.
Qed.

Lemma count_le_max x l : In x l -> count eqb x l <= max_count eqb l.
Proof. apply count_le_fold. Qed.

Lemma fold_max_attained l l' :
  l' <> [] ->
  exists x, In x l' /\
    count eqb x l = fold_right (fun y m => Nat.max (count eqb y l) m) 0 l'.
Proof.
  induction l' as [|y l' IH]; [congruence|]. intros _. simpl.
  destruct l' as [|z l'].
  - exists y. simpl. split; [auto|lia].
  - destruct IH as [x [Hin Hx]]; [congruence|].
    destruct (Nat.max_spec (count eqb y l)
                (fold_right (fun y m => Nat.max (count eqb y l) m) 0 (z :: l')))
      as [[_ Hm]|[_ Hm]]; rewrite Hm.
    + exists x. split; [right; exact Hin|exact Hx].
    + exists y. split; [left; reflexivity|reflexivity].
Qed.

Lemma mem_true x l : mem eqb x l = true -> exists y, In y l /\ eqb x y = true.
Proof.
  induction l as [|z l IH]; simpl; [discriminate|].
  intros H. apply orb_true_iff in H. destruct H as [H|H].
  - exists z. auto.
  - destruct (IH H) as [y [Hy Hxy]]. exists y. auto.
Qed.

Lemma unique_acc_repr seen l x :
  In x l ->
  mem eqb x seen = true \/
  exists y, In y (unique_acc eqb seen l) /\ eqb x y = true.
Proof.
  revert seen. induction l as [|a l IH]; intros seen; simpl; [tauto|].
  intros [->|Hin].
  - destruct (mem eqb x seen) eqn:Hm; [left; reflexivity|].
    right. exists x. split; [left; reflexivity|apply eqb_refl].
  - destruct (mem eqb a seen) eqn:Hm.
    + apply IH. exact Hin.
    + destruct (IH (a :: seen) Hin) as [H|[y [Hy Hxy]]].
      * simpl in H. apply orb_true_iff in H. destruct H as [H|H].
        -- right. exists a. split; [left; reflexivity|exact H].
        -- left. exact H.
      * right. exists y. split; [right; exact Hy|exact Hxy].
Qed.

Lemma unique_repr l x :
  In x l -> exists y, In y (unique eqb l) /\ eqb x y = true.
Proof.
  intros Hin. destruct (unique_acc_repr [] l x Hin) as [H|H].
  - discriminate.
  - exact H.
Qed.

Lemma unique_acc_in seen l y : In y (unique_acc eqb seen l) -> In y l.
Proof.
  revert seen. induction l as [|a l IH]; intros seen; simpl; [tauto|].
  destruct (mem eqb a seen).
  - intros H. right. eapply IH; eauto.
  - intros [->|H]; [left; reflexivity|right; eapply IH; eauto].
Qed.

Lemma most_frequent_in l y :
  In y (most_frequent eqb l) ->
  In y l /\ count eqb y l = max_count eqb l.
Proof.
  unfold most_frequent. rewrite filter_In. intros [Hin Hc].
  split.
  - eapply unique_acc_in. exact Hin.
  - apply Nat.eqb_eq. exact Hc.
Qed.

Lemma most_frequent_repr l x :
  In x l -> count eqb x l = max_count eqb l ->
  exists y, In y (most_frequent eqb l) /\ eqb x y = true.
Proof.
  intros Hin Hc. destruct (unique_repr l x Hin) as [y [Hy Hxy]].
  exists y. split; [|exact Hxy].
  unfold most_frequent. apply filter_In. split; [exact Hy|].
  apply Nat.eqb_eq. rewrite <- Hc. symmetry. apply count_eqb. exact Hxy.
Qed.

Lemma most_frequent_nonempty l : l <> [] -> most_frequent eqb l <> [].
Proof.
  intros Hl. destruct (fold_max_attained l l Hl) as [x [Hin Hx]].
  destruct (most_frequent_repr l x Hin Hx) as [y [Hy _]].
  intros E. rewrite E in Hy. exact Hy.
Qed.

Lemma insert_sorted_in x y l : In y (insert_sorted leb x l) <-> y = x \/ In y l.
Proof.
  induction l as [|z l IH]; simpl.
  - intuition congruence.
  - destruct (leb x z); simpl; [intuition congruence|].
    rewrite IH. intuition congruence.
Qed.

Lemma sort_in y l : In y (sort leb l) <-> In y l.
Proof.
  induction l as [|x l IH]; simpl; [tauto|].
  rewrite insert_sorted_in, IH. intuition congruence.
Qed.

Lemma sort_nonempty l : l <> [] -> sort leb l <> [].
Proof.
  destruct l as [|x l]; [congruence|]. intros _ E.
  assert (H : In x (sort leb (x :: l))) by (apply sort_in; left; reflexivity).
  rewrite E in H. exact H.
Qed.

Lemma leb_refl x : leb x x = true.
Proof. destruct (leb_total x x); assumption. Qed.

Lemma insert_sorted_head_least x l :
  head_least leb l -> head_least leb (insert_sorted leb x l).
Proof.
  destruct l as [|y l]; simpl.
  - intros _ w [->|[]]. apply leb_refl.
  - intros Hy. destruct (leb x y) eqn:Hxy; simpl.
    + intros w [->|Hw]; [apply leb_refl|].
      apply leb_trans with y; [exact Hxy|apply Hy; exact Hw].
    + intros w [->|Hw]; [apply leb_refl|].
      apply insert_sorted_in in Hw. destruct Hw as [->|Hw].
      * destruct (leb_total x y) as [H|H]; [congruence|exact H].
      * apply Hy. right. exact Hw.
Qed.

Lemma sort_head_least l : head_least leb (sort leb l).
Proof.
  induction l as [|x l IH]; simpl; [exact I|].
  apply insert_sorted_head_least. exact IH.
Qed.

(** What [mode()[0]] is: a most frequent value, the least of them. *)
Lemma modes_head l :
  l <> [] ->
  exists v, hd_error (modes eqb leb l) = Some v /\
    In v l /\
    (forall w, In w l -> count eqb w l <= count eqb v l) /\
    (forall w, In w l -> count eqb w l = count eqb v l -> leb v w = true).
Proof.
  intros Hl. unfold modes.
  pose proof (sort_head_least (most_frequent eqb l)) as Hleast.
  pose proof (sort_nonempty _ (most_frequent_nonempty l Hl)) as Hne.
  destruct (sort leb (most_frequent eqb l)) as [|v rest] eqn:E; [congruence|].
  exists v. split; [reflexivity|].
  assert (Hv : In v (most_frequent eqb l)).
  { apply sort_in. rewrite E. left. reflexivity. }
  apply most_frequent_in in Hv. destruct Hv as [Hvin Hvc].
  split; [exact Hvin|]. split.
  - intros w Hw. rewrite Hvc. apply count_le_max. exact Hw.
  - intros w Hw Hc. rewrite Hvc in Hc.
    destruct (most_frequent_repr l w Hw Hc) as [y [Hy Hwy]].
    apply leb_trans with y.
    + apply Hleast. rewrite <- E. apply sort_in. exact Hy.
    + apply eqb_leb. apply eqb_sym. exact Hwy.
Qed.
End ModesFacts.

(** * The cleaner: what the "Clean Data" block computes *)

Module CleanerFacts.
Import Cleaner.

Lemma string_leb_iff s1 s2 :
  String.leb s1 s2 = true <-> s1 = s2 \/ String_as_OT.lt s1 s2.
Proof.
  unfold String.leb. destruct (String.compare s1 s2) eqn:E.
  - apply String_as_OT.cmp_eq in E. tauto.
  - apply String_as_OT.cmp_lt in E. tauto.
  - split; [discriminate|]. intros [H|H].
    + apply String_as_OT.cmp_eq in H. unfold String_as_OT.cmp in H. congruence.
    + apply String_as_OT.cmp_lt in H. unfold String_as_OT.cmp in H. congruence.
Qed.

Lemma string_leb_trans s1 s2 s3 :
  String.leb s1 s2 = true -> String.leb s2 s3 = true -> String.leb s1 s3 = true.
Proof.
  rewrite !string_leb_iff. intros [->|H12] [->|H23]; auto.
  right. eapply String_as_OT.lt_trans; eauto.
Qed.

Lemma string_eqb_leb s1 s2 : String.eqb s1 s2 = true -> String.leb s1 s2 = true.
Proof. rewrite String.eqb_eq, string_leb_iff. auto. Qed.

Lemma string_eqb_sym s1 s2 : String.eqb s1 s2 = true -> String.eqb s2 s1 = true.
Proof. rewrite String.eqb_sym. auto. Qed.

Lemma string_eqb_trans s1 s2 s3 :
  String.eqb s1 s2 = true -> String.eqb s2 s3 = true -> String.eqb s1 s3 = true.
Proof. rewrite !String.eqb_eq. congruence. Qed.

Lemma Qle_bool_total x y : Qle_bool x y = true \/ Qle_bool y x = true.
Proof.
  rewrite !Qle_bool_iff. destruct (Qlt_le_dec x y) as [H|H].
  - left. apply Qlt_le_weak. exact H.
  - right. exact H.
Qed.

Lemma Qle_bool_trans x y z :
  Qle_bool x y = true -> Qle_bool y z = true -> Qle_bool x z = true.
Proof. rewrite !Qle_bool_iff. apply Qle_trans. Qed.

Lemma Qeq_bool_le x y : Qeq_bool x y = true -> Qle_bool x y = true.
Proof.
  rewrite Qeq_bool_iff, Qle_bool_iff. intros H. rewrite H. apply Qle_refl.
Qed.

(** ** Cells *)

Lemma map_fill_no_null {A : Type} (v : A) (l : list (option A)) :
  count_null l = 0 -> map (fill v) l = l.
Proof.
  unfold count_null. induction l as [|[x|] l IH]; simpl; intros H.
  - reflexivity.
  - rewrite IH; auto.
  - discriminate.
Qed.

Lemma count_null_map_fill {A : Type} (v : A) (l : list (option A)) :
  count_null (map (fill v) l) = 0.
Proof.
  unfold count_null. induction l as [|[x|] l IH]; simpl; auto.
Qed.

Lemma present_nil_count_null {A : Type} (l : list (option A)) :
  present l = [] -> count_null l = List.length l.
Proof.
  unfold count_null. induction l as [|[x|] l IH]; simpl; intros H.
  - reflexivity.
  - discriminate.
  - rewrite IH; auto.
Qed.

Lemma impute_column_no_null fill_method s :
  isnull_sum s = 0 -> impute_column fill_method s = s.
Proof.
  destruct s as [l|l]; simpl; intros H.
  - destruct (match fill_method with
              | Mean => nanmean l
              | Median => nanmedian l
              | Mode => hd_error (modes Qeq_bool Qle_bool (present l))
              end); [|reflexivity].
    rewrite map_fill_no_null; auto.
  - destruct fill_method; try reflexivity.
    destruct (hd_error (modes String.eqb String.leb (present l))); [|reflexivity].
    rewrite map_fill_no_null; auto.
Qed.

(** ** One turn of the loop *)

Lemma filled_value_for_run fill_method s h :
  exists fv, filled_value_for fill_method s h = Ok (fv, h) /\
    match fv with Some v => fillna v s | None => s end
    = impute_column fill_method s.
Proof.
  destruct fill_method, s as [l|l]; unfold filled_value_for; simpl.
  - eexists. split; [reflexivity|]. simpl. destruct (nanmean l); reflexivity.
  - eexists. split; [reflexivity|]. reflexivity.
  - eexists. split; [reflexivity|]. simpl. destruct (nanmedian l); reflexivity.
  - eexists. split; [reflexivity|]. reflexivity.
  - destruct (modes Qeq_bool Qle_bool (present l)) as [|v ms]; simpl;
      (eexists; split; [reflexivity|]); reflexivity.
  - destruct (modes String.eqb String.leb (present l)) as [|v ms]; simpl;
      (eexists; split; [reflexivity|]); reflexivity.
Qed.

Lemma nth_error_app_last {A : Type} (h : list A) (d : A) :
  nth_error (h ++ [d]) (List.length h) = Some d.
Proof. induction h; simpl; auto. Qed.

Lemma update_app_last {A : Type} (h : list A) (d d' : A) :
  update (List.length h) d' (h ++ [d]) = h ++ [d'].
Proof. induction h; simpl; [reflexivity|]. rewrite IHh. reflexivity. Qed.

Lemma replace_column_ext col f g d s :
  lookup col d = Some s -> f s = g s ->
  replace_column col f d = replace_column col g d.
Proof.
  induction d as [|[name s'] d IH]; simpl; [discriminate|].
  destruct (String.eqb col name).
  - intros [= ->] ->. reflexivity.
  - intros H1 H2. rewrite IH; auto.
Qed.

Lemma replace_column_same col f d s :
  lookup col d = Some s -> f s = s -> replace_column col f d = d.
Proof.
  induction d as [|[name s'] d IH]; simpl; [discriminate|].
  destruct (String.eqb col name).
  - intros [= ->] ->. reflexivity.
  - intros H1 H2. rewrite IH; auto.
Qed.

Lemma columns_replace_column col f d :
  columns (replace_column col f d) = columns d.
Proof.
  unfold columns. induction d as [|[name s] d IH]; simpl; [reflexivity|].
  destruct (String.eqb col name); simpl; [reflexivity|]. rewrite IH. reflexivity.
Qed.

Lemma lookup_in_columns col d :
  In col (columns d) -> exists s, lookup col d = Some s.
Proof.
  unfold columns. induction d as [|[name s] d IH]; simpl; [tauto|].
  destruct (String.eqb_spec col name) as [->|Hne].
  - intros _. eauto.
  - intros [H|H]; [congruence|]. apply IH. exact H.
Qed.

Lemma loop_body_run fill_method h d col s :
  lookup col d = Some s ->
  loop_body fill_method (List.length h) col (h ++ [d])
  = Ok (tt, h ++ [replace_column col (impute_column fill_method) d]).
Proof.
  intros Hl. unfold loop_body, getitem, bind, deref.
  rewrite nth_error_app_last, Hl. unfold ret at 1.
  destruct (0 <? isnull_sum s) eqn:Hn.
  - destruct (filled_value_for_run fill_method s (h ++ [d])) as [fv [Hrun Hfv]].
    rewrite Hrun. destruct fv as [v|].
    + unfold fillna_inplace, bind, deref, assign.
      rewrite nth_error_app_last.
      replace (List.length h <? List.length (h ++ [d])) with true.
      * rewrite update_app_last.
        rewrite (replace_column_ext col (fillna v) (impute_column fill_method) d s);
          auto.
      * symmetry. apply Nat.ltb_lt. rewrite length_app. simpl. lia.
    + unfold ret. rewrite (replace_column_same col _ d s); auto.
  - unfold ret. rewrite (replace_column_same col _ d s); auto.
    apply impute_column_no_null. apply Nat.ltb_ge in Hn. lia.
Qed.

Lemma for_each_run fill_method h cols d :
  (forall col, In col cols -> In col (columns d)) ->
  for_each cols (loop_body fill_method (List.length h)) (h ++ [d])
  = Ok (tt, h ++ [loop_result fill_method cols d]).
Proof.
  revert d. induction cols as [|col cols IH]; intros d Hin; simpl.
  - reflexivity.
  - destruct (lookup_in_columns col d) as [s Hs]; [apply Hin; left; reflexivity|].
    unfold bind. rewrite (loop_body_run fill_method h d col s Hs).
    apply IH. intros c Hc. rewrite columns_replace_column.
    apply Hin. right. exact Hc.
Qed.
(** ** The whole loop *)

Lemma loop_result_cons_other fill_method cols name s d :
  ~ In name cols ->
  loop_result fill_method cols ((name, s) :: d)
  = (name, s) :: loop_result fill_method cols d.
Proof.
  revert d s. induction cols as [|col cols IH]; intros d s Hnot; simpl.
  - reflexivity.
  - destruct (String.eqb_spec col name) as [->|Hne].
    + exfalso. apply Hnot. left. reflexivity.
    + apply IH. intros H. apply Hnot. right. exact H.
Qed.

Lemma columns_filter_incl (P : string * Series -> bool) d col :
  In col (columns (filter P d)) -> In col (columns d).
Proof.
  unfold columns. rewrite !in_map_iff. intros [c [Hc Hin]].
  apply filter_In in Hin. exists c. tauto.
Qed.

Lemma loop_result_filter fill_method (P : string * Series -> bool) d :
  NoDup (columns d) ->
  loop_result fill_method (columns (filter P d)) d
  = map (fun c => if P c then (fst c, impute_column fill_method (snd c)) else c) d.
Proof.
  induction d as [|[name s] d IH]; intros Hnd; [reflexivity|].
  simpl in Hnd. inversion Hnd as [|? ? Hnot Hnd']; subst.
  assert (Hnot' : ~ In name (columns (filter P d))).
  { intros H. apply Hnot. eapply columns_filter_incl. exact H. }
  simpl. destruct (P (name, s)); simpl.
  - rewrite String.eqb_refl. rewrite loop_result_cons_other by exact Hnot'.
    rewrite IH by exact Hnd'. reflexivity.
  - rewrite loop_result_cons_other by exact Hnot'.
    rewrite IH by exact Hnd'. reflexivity.
Qed.

Lemma filter_all {A : Type} (l : list A) : filter (fun _ => true) l = l.
Proof. induction l; simpl; congruence. Qed.

Lemma cols_to_process_filter exclude_cols d :
  cols_to_process exclude_cols d
  = columns (filter (fun c => in_scope exclude_cols (snd c)) d).
Proof.
  destruct exclude_cols; simpl.
  - reflexivity.
  - unfold in_scope. simpl. rewrite filter_all. reflexivity.
Qed.

(** The block never raises: it allocates one frame, the copy, works on it
    and leaves every other object of the store alone. *)
Lemma Clean_Data_run_loop fill_method exclude_cols df h d :
  nth_error h df = Some d ->
  let d' := loop_result fill_method (cols_to_process exclude_cols d) d in
  Clean_Data fill_method exclude_cols df h
  = Ok ((List.length h, isnull_sum_sum d', message_of (isnull_sum_sum d')),
        h ++ [d']).
Proof.
  intros Hd d'. unfold Clean_Data, copy, new, bind, deref at 1. rewrite Hd.
  unfold deref at 1. rewrite nth_error_app_last.
  unfold ret at 1. rewrite for_each_run.
  - unfold deref. rewrite nth_error_app_last. reflexivity.
  - intros col. rewrite cols_to_process_filter. apply columns_filter_incl.
Qed.

Lemma Clean_Data_run fill_method exclude_cols df h d :
  nth_error h df = Some d -> well_formed d ->
  let d' := impute fill_method exclude_cols d in
  Clean_Data fill_method exclude_cols df h
  = Ok ((List.length h, isnull_sum_sum d', message_of (isnull_sum_sum d')),
        h ++ [d']).
Proof.
  intros Hd Hwf. rewrite (Clean_Data_run_loop _ _ _ _ _ Hd).
  rewrite cols_to_process_filter, loop_result_filter by exact Hwf.
  reflexivity.
Qed.

Lemma clean_data_run fill_method exclude_cols d :
  well_formed d ->
  let d' := impute fill_method exclude_cols d in
  clean_data fill_method exclude_cols d
  = Ok (d', isnull_sum_sum d', message_of (isnull_sum_sum d')).
Proof.
  intros Hwf. unfold clean_data.
  rewrite (Clean_Data_run fill_method exclude_cols 0 [d] d eq_refl Hwf).
  reflexivity.
Qed.

Lemma nth_error_impute fill_method exclude_cols d i name s :
  nth_error d i = Some (name, s) ->
  nth_error (impute fill_method exclude_cols d) i
  = Some (name, if in_scope exclude_cols s
                then impute_column fill_method s else s).
Proof.
  intros H. unfold impute. rewrite nth_error_map, H. simpl.
  destruct (in_scope exclude_cols s); reflexivity.
Qed.

Lemma columns_impute fill_method exclude_cols d :
  columns (impute fill_method exclude_cols d) = columns d.
Proof.
  unfold columns, impute. rewrite map_map. apply map_ext.
  intros [name s]. simpl. destruct (in_scope exclude_cols s); reflexivity.
Qed.
(** ** The example *)

Lemma well_formed_scenario : well_formed scenario_table.
Proof.
  unfold well_formed, scenario_table. simpl.
  repeat constructor; simpl; intuition discriminate.
Qed.

(** ** Mode *)

Lemma Qmodes_head l :
  l <> [] ->
  exists v, hd_error (modes Qeq_bool Qle_bool l) = Some v /\
            least_mode Qeq_bool Qle_bool l v.
Proof.
  intros Hl.
  destruct (modes_head Q Qeq_bool Qle_bool Qeq_bool_refl Qeq_bool_sym
              Qeq_bool_trans Qle_bool_total Qle_bool_trans Qeq_bool_le l Hl)
    as [v [Hv Hleast]].
  exists v. split; assumption.
Qed.

Lemma string_modes_head l :
  l <> [] ->
  exists v, hd_error (modes String.eqb String.leb l) = Some v /\
            least_mode String.eqb String.leb l v.
Proof.
  intros Hl.
  destruct (modes_head string String.eqb String.leb String.eqb_refl
              string_eqb_sym string_eqb_trans String.leb_total
              string_leb_trans string_eqb_leb l Hl)
    as [v [Hv Hleast]].
  exists v. split; assumption.
Qed.

Lemma well_formed_tie_table : well_formed tie_table.
Proof.
  unfold well_formed, tie_table. simpl.
  repeat constructor; simpl; intuition discriminate.
Qed.

(** C2, as the specification has it, fails: in the column
    [b, a, NaN, b, a] the values [a] and [b] are tied, [b] comes first in
    row order, and the missing cell is filled with [a]. *)
Lemma mode_tie_not_first_in_row_order :
  let l := [Some "b"%string; Some "a"%string; None; Some "b"%string;
            Some "a"%string] in
  first_most_frequent String.eqb l = Some "b"%string /\
  clean_data Mode false [("Name"%string, Object l)]
  = Ok ([("Name"%string, Object (map (fill "a"%string) l))], 0, success) /\
  map (fill "a"%string) l <> map (fill "b"%string) l.
Proof.
  split; [reflexivity|]. split; [reflexivity|]. discriminate.
Qed.

(** C2, amended.  Under Mode, a column in scope with at least one present
    value keeps its present cells and has every missing cell filled with
    one value [v]: a most frequent present value and, when several are tied,
    the least of them (the order of the numbers, the lexicographic order of
    the strings), which is how [mode()] sorts its result. *)
Theorem mode_fills_with_least_most_frequent :
  forall exclude_cols d, well_formed d ->
    exists out remaining msg,
      clean_data Mode exclude_cols d = Ok (out, remaining, msg) /\
      forall i name,
        (forall l, nth_error d i = Some (name, Float64 l) ->
           present l <> [] ->
           exists v, least_mode Qeq_bool Qle_bool (present l) v /\
             nth_error out i
             = Some (name,
                     Float64 (map (fun c => match c with
                                            | Some x => Some x
                                            | None => Some v
                                            end) l))) /\
        (forall l, nth_error d i = Some (name, Object l) ->
           exclude_cols = false -> present l <> [] ->
           exists v, least_mode String.eqb String.leb (present l) v /\
             nth_error out i
             = Some (name,
                     Object (map (fun c => match c with
                                           | Some x => Some x
                                           | None => Some v
                                           end) l))).
Proof.
  intros exclude_cols d Hwf. do 3 eexists.
  split; [apply clean_data_run; exact Hwf|].
  intros i name. split.
  - intros l Hi Hp. destruct (Qmodes_head _ Hp) as [v [Hv Hleast]].
    exists v. split; [exact Hleast|].
    rewrite (nth_error_impute _ _ _ _ _ _ Hi).
    unfold in_scope. simpl. rewrite orb_true_r. rewrite Hv. reflexivity.
  - intros l Hi -> Hp. destruct (string_modes_head _ Hp) as [v [Hv Hleast]].
    exists v. split; [exact Hleast|].
    rewrite (nth_error_impute _ _ _ _ _ _ Hi).
    unfold in_scope. simpl. rewrite Hv. reflexivity.
Qed.

Lemma mode_fills_with_least_most_frequent_witness :
  well_formed tie_table /\
  exists out remaining msg,
    clean_data Mode false tie_table = Ok (out, remaining, msg) /\
    exists v, least_mode String.eqb String.leb ["b"; "a"; "b"; "a"]%string v /\
      nth_error out 0
      = Some ("Name"%string,
              Object [Some "b"%string; Some "a"%string; Some v;
                      Some "b"%string; Some "a"%string]).
Proof.
  split; [exact well_formed_tie_table|].
  destruct (mode_fills_with_least_most_frequent false tie_table
              well_formed_tie_table)
    as [out [remaining [msg [Hrun Hcols]]]].
  exists out, remaining, msg. split; [exact Hrun|].
  apply (proj2 (Hcols 0 "Name"%string) _ eq_refl eq_refl).
  simpl. discriminate.
Defined.
(** ** The input frame is left alone *)

Lemma nth_error_app_old {A : Type} (h : list A) (d : A) r :
  r < List.length h -> nth_error (h ++ [d]) r = nth_error h r.
Proof. intros Hr. apply nth_error_app1. exact Hr. Qed.

(** C3.  Whatever the table, the method and the option, the block runs to
    its end on a frame object of its own: the reference it returns is a
    new one, and the object [df] refers to (as every object the session
    already had) holds after the call exactly the cells, present or
    missing, that it held before. *)
Theorem clean_data_does_not_mutate_input :
  forall fill_method exclude_cols h df d,
    nth_error h df = Some d ->
    exists cleaned_df remaining msg h',
      Clean_Data fill_method exclude_cols df h
      = Ok ((cleaned_df, remaining, msg), h') /\
      cleaned_df <> df /\
      nth_error h cleaned_df = None /\
      nth_error h' df = Some d /\
      (forall r, r < List.length h -> nth_error h' r = nth_error h r) /\
      exists d', nth_error h' cleaned_df = Some d'.
Proof.
  intros fill_method exclude_cols h df d Hd.
  assert (Hlt : df < List.length h).
  { apply nth_error_Some. congruence. }
  do 4 eexists. split; [apply Clean_Data_run_loop; exact Hd|].
  split; [lia|]. split; [apply nth_error_None; lia|].
  split; [rewrite nth_error_app_old by exact Hlt; exact Hd|].
  split; [intros r Hr; apply nth_error_app_old; exact Hr|].
  eexists. apply nth_error_app_last.
Qed.

Lemma clean_data_does_not_mutate_input_witness :
  exists cleaned_df remaining msg h',
    Clean_Data Mean false 0 [scenario_table]
    = Ok ((cleaned_df, remaining, msg), h') /\
    cleaned_df <> 0 /\
    nth_error h' 0 = Some scenario_table.
Proof.
  destruct (clean_data_does_not_mutate_input Mean false [scenario_table] 0
              scenario_table eq_refl)
    as [c [r [m [h' [Hrun [Hne [_ [Hold _]]]]]]]].
  exists c, r, m, h'. split; [exact Hrun|]. split; [exact Hne|exact Hold].
Defined.

(** ** Columns that are skipped *)

Lemma isnull_sum_le_total d i name s :
  nth_error d i = Some (name, s) -> isnull_sum s <= isnull_sum_sum d.
Proof.
  revert i. induction d as [|c d IH]; intros [|i]; simpl; try discriminate.
  - intros [= ->]. simpl. lia.
  - intros H. specialize (IH i H). lia.
Qed.

Lemma message_of_pos n : 0 < n -> message_of n = warning n.
Proof. destruct n; [lia|reflexivity]. Qed.

Lemma well_formed_mixed_table : well_formed mixed_table.
Proof.
  unfold well_formed, mixed_table. simpl.
  repeat constructor; simpl; intuition discriminate.
Qed.

(** C4.  Under Mean or Median, whatever the option, a non-numeric column
    with missing cells comes out as it went in, the block returns normally
    (no exception), and the count of cells still missing that it reports is
    positive: the warning carrying that count is all the caller is told. *)
Theorem mean_median_skip_non_numeric :
  forall fill_method exclude_cols d i name l,
    fill_method = Mean \/ fill_method = Median ->
    well_formed d ->
    nth_error d i = Some (name, Object l) ->
    0 < count_null l ->
    exists out remaining,
      clean_data fill_method exclude_cols d
      = Ok (out, remaining, warning remaining) /\
      nth_error out i = Some (name, Object l) /\
      remaining = isnull_sum_sum out /\
      0 < remaining.
Proof.
  intros fill_method exclude_cols d i name l Hm Hwf Hi Hnull.
  assert (Hout : nth_error (impute fill_method exclude_cols d) i
                 = Some (name, Object l)).
  { rewrite (nth_error_impute _ _ _ _ _ _ Hi).
    destruct Hm as [-> | ->]; simpl;
      destruct (in_scope exclude_cols (Object l)); reflexivity. }
  assert (Hpos : 0 < isnull_sum_sum (impute fill_method exclude_cols d)).
  { pose proof (isnull_sum_le_total _ _ _ _ Hout) as Hle. simpl in Hle. lia. }
  do 2 eexists. split.
  - rewrite clean_data_run by exact Hwf. rewrite (message_of_pos _ Hpos).
    reflexivity.
  - split; [exact Hout|]. split; [reflexivity|exact Hpos].
Qed.

Lemma mean_median_skip_non_numeric_witness :
  exists out remaining,
    clean_data Median false mixed_table = Ok (out, remaining, warning remaining) /\
    nth_error out 0
    = Some ("Name"%string, Object [Some "Bav1"%string; None; Some "Kumar"%string]) /\
    0 < remaining.
Proof.
  destruct (mean_median_skip_non_numeric Median false mixed_table 0
              "Name"%string [Some "Bav1"%string; None; Some "Kumar"%string]
              (or_intror eq_refl) well_formed_mixed_table eq_refl
              (Nat.lt_0_succ 0))
    as [out [remaining [Hrun [Hcol [_ Hpos]]]]].
  exists out, remaining. split; [exact Hrun|]. split; [exact Hcol|exact Hpos].
Defined.

(** ** Scope *)

(** C5.  With the option set, whatever the method, the columns taken for
    processing are exactly those of numeric dtype, and every other column
    stands in the output at its place with its label and all its cells,
    missing ones included, as in the input. *)
Theorem exclude_non_numeric_scope :
  forall fill_method d, well_formed d ->
    cols_to_process true d
    = columns (filter (fun c => is_numeric_dtype (snd c)) d) /\
    exists out remaining msg,
      clean_data fill_method true d = Ok (out, remaining, msg) /\
      List.length out = List.length d /\
      forall i name s,
        nth_error d i = Some (name, s) ->
        is_numeric_dtype s = false ->
        nth_error out i = Some (name, s).
Proof.
  intros fill_method d Hwf. split; [reflexivity|].
  do 3 eexists. split; [apply clean_data_run; exact Hwf|].
  split; [unfold impute; apply length_map|].
  intros i name s Hi Hs. rewrite (nth_error_impute _ _ _ _ _ _ Hi).
  unfold in_scope. rewrite Hs. reflexivity.
Qed.

Lemma exclude_non_numeric_scope_witness :
  exists out remaining msg,
    clean_data Mode true mixed_table = Ok (out, remaining, msg) /\
    nth_error out 0
    = Some ("Name"%string, Object [Some "Bav1"%string; None; Some "Kumar"%string]).
Proof.
  destruct (exclude_non_numeric_scope Mode mixed_table well_formed_mixed_table)
    as [_ [out [remaining [msg [Hrun [_ Hcols]]]]]].
  exists out, remaining, msg. split; [exact Hrun|].
  exact (Hcols 0 "Name"%string _ eq_refl eq_refl).
Defined.

(** ** Running the block on its own output *)

Lemma is_numeric_dtype_impute_column fill_method s :
  is_numeric_dtype (impute_column fill_method s) = is_numeric_dtype s.
Proof.
  destruct s as [l|l]; simpl.
  - destruct (match fill_method with
              | Mean => nanmean l
              | Median => nanmedian l
              | Mode => hd_error (modes Qeq_bool Qle_bool (present l))
              end); reflexivity.
  - destruct fill_method; try reflexivity.
    destruct (hd_error (modes String.eqb String.leb (present l))); reflexivity.
Qed.

Lemma impute_column_idempotent fill_method s :
  impute_column fill_method (impute_column fill_method s)
  = impute_column fill_method s.
Proof.
  destruct s as [l|l].
  - simpl.
    destruct (match fill_method with
              | Mean => nanmean l
              | Median => nanmedian l
              | Mode => hd_error (modes Qeq_bool Qle_bool (present l))
              end) as [v|] eqn:E.
    + apply impute_column_no_null. simpl. apply count_null_map_fill.
    + simpl. rewrite E. reflexivity.
  - destruct fill_method; try reflexivity. simpl.
    destruct (hd_error (modes String.eqb String.leb (present l))) as [v|] eqn:E.
    + apply impute_column_no_null. simpl. apply count_null_map_fill.
    + simpl. rewrite E. reflexivity.
Qed.

Lemma impute_idempotent fill_method exclude_cols d :
  impute fill_method exclude_cols (impute fill_method exclude_cols d)
  = impute fill_method exclude_cols d.
Proof.
  unfold impute. rewrite map_map. apply map_ext. intros [name s]. simpl.
  destruct (in_scope exclude_cols s) eqn:Hs; simpl.
  - unfold in_scope in *. rewrite is_numeric_dtype_impute_column, Hs.
    rewrite impute_column_idempotent. reflexivity.
  - rewrite Hs. reflexivity.
Qed.

(** C6.  On a well-formed table whose columns in scope are all eligible
    (numeric under Mean and Median, with a present value under Mode),
    running the block again, same method and same option, on the table it
    returned gives that table back unchanged. *)
Theorem clean_data_idempotent :
  forall fill_method exclude_cols d,
    well_formed d ->
    (forall name s, In (name, s) d ->
       in_scope exclude_cols s = true -> eligible fill_method s) ->
    exists out remaining msg,
      clean_data fill_method exclude_cols d = Ok (out, remaining, msg) /\
      clean_data fill_method exclude_cols out = Ok (out, remaining, msg).
Proof.
  intros fill_method exclude_cols d Hwf _.
  do 3 eexists. split; [apply clean_data_run; exact Hwf|].
  rewrite clean_data_run.
  - rewrite impute_idempotent. reflexivity.
  - unfold well_formed. rewrite columns_impute. exact Hwf.
Qed.

Lemma clean_data_idempotent_witness :
  exists out remaining msg,
    clean_data Mean false scenario_table = Ok (out, remaining, msg) /\
    clean_data Mean false out = Ok (out, remaining, msg).
Proof.
  apply (clean_data_idempotent Mean false scenario_table well_formed_scenario).
  intros name s Hin _. simpl in Hin.
  destruct Hin as [H|[H|[]]]; inversion H; reflexivity.
Defined.
End CleanerFacts.

(** * The inventory: records, identifiers and the counter *)

Module InventoryFacts.
Import Inventory.
Local Open Scope string_scope.

(** ** Identifiers can be read back *)

Lemma uint_of_string_zeros k s :
  option_map Nat.of_uint (NilEmpty.uint_of_string (zeros k s))
  = option_map Nat.of_uint (NilEmpty.uint_of_string s).
Proof.
  induction k as [|k IH]; simpl; [reflexivity|].
  rewrite <- IH.
  destruct (NilEmpty.uint_of_string (zeros k s)); reflexivity.
Qed.

Lemma read_id_product_id_of i : read_id (product_id_of i) = Some i.
Proof.
  unfold product_id_of, format_03d, str. simpl.
  rewrite uint_of_string_zeros, NilEmpty.usu. simpl.
  rewrite DecimalNat.Unsigned.of_to. reflexivity.
Qed.

Lemma product_id_of_inj i j : product_id_of i = product_id_of j -> i = j.
Proof.
  intros H. apply (f_equal read_id) in H.
  rewrite !read_id_product_id_of in H. congruence.
Qed.
Lemma three_digits_checked :
  forallb (fun i => String.eqb (product_id_of i) (three_digit_id i))
    (seq 0 1000) = true.
Proof. vm_compute. reflexivity. Qed.

Lemma product_id_of_three_digits i :
  i < 1000 -> product_id_of i = three_digit_id i.
Proof.
  intros Hi. pose proof three_digits_checked as H.
  rewrite forallb_forall in H. apply String.eqb_eq. apply H.
  apply in_seq. lia.
Qed.

Lemma product_ids_three_digits n :
  n < 1000 ->
  map product_id_of (seq 1 n) = map three_digit_id (seq 1 n).
Proof.
  intros Hn. apply map_ext_in. intros i Hi. apply in_seq in Hi.
  apply product_id_of_three_digits. lia.
Qed.

(** ** The status of a record *)

Lemma status_derived_new pid name category quantity reorder_level :
  status_derived
    {| ProductID := pid; Name := name; Category := category;
       QuantityAvailable := quantity; ReorderLevel := reorder_level;
       Status := if (quantity <=? reorder_level)%Z
                 then "Low Stock" else "In Stock" |}.
Proof.
  unfold status_derived. simpl.
  destruct (Z.leb_spec quantity reorder_level); split; intros; try lia; reflexivity.
Qed.

Lemma add_product_status pid name category quantity reorder_level st :
  Forall status_derived (data st) ->
  Forall status_derived
    (data (fst (add_product pid name category quantity reorder_level st))).
Proof.
  intros Hst. unfold add_product. destruct (String.eqb name ""); simpl.
  - exact Hst.
  - apply Forall_app. split; [exact Hst|].
    constructor; [apply status_derived_new|constructor].
Qed.

Section RandomFacts.
Variable rng : Type.
Variable choice : list string -> rng -> string * rng.
Variable randint : Z -> Z -> rng -> Z * rng.

Lemma sample_item_spec i acc g :
  exists p g',
    sample_item rng choice randint i (acc, g) = ((acc ++ [p])%list, g') /\
    ProductID p = product_id_of i /\ status_derived p.
Proof.
  unfold sample_item.
  destruct (choice CATEGORIES g) as [category g1].
  destruct (choice PRODUCT_NAMES g1) as [base g2].
  destruct (randint 100%Z 999%Z g2) as [suffix g3].
  destruct (randint 0%Z 100%Z g3) as [quantity g4].
  destruct (randint 5%Z 30%Z g4) as [reorder_level g5].
  do 2 eexists. split; [reflexivity|].
  split; [reflexivity|apply status_derived_new].
Qed.

Lemma sample_loop_spec l acc g :
  map ProductID
    (fst (fold_left (fun acc i => sample_item rng choice randint i acc) l
            (acc, g)))
  = (map ProductID acc ++ map product_id_of l)%list /\
  (Forall status_derived acc ->
   Forall status_derived
     (fst (fold_left (fun acc i => sample_item rng choice randint i acc) l
             (acc, g)))).
Proof.
  revert acc g. induction l as [|i l IH]; intros acc g; cbn [fold_left].
  - simpl. rewrite app_nil_r. auto.
  - destruct (sample_item_spec i acc g) as [p [g' [-> [Hid Hst]]]].
    destruct (IH (acc ++ [p])%list g') as [Hids Hsts]. split.
    + rewrite Hids, map_app. simpl. rewrite Hid, <- app_assoc. reflexivity.
    + intros Hacc. apply Hsts. apply Forall_app. split; [exact Hacc|].
      constructor; [exact Hst|constructor].
Qed.

Lemma generate_sample_data_ids num_items g :
  map ProductID (fst (generate_sample_data rng choice randint num_items g))
  = map product_id_of (seq 1 num_items).
Proof.
  unfold generate_sample_data.
  exact (proj1 (sample_loop_spec (seq 1 num_items) [] g)).
Qed.

Lemma generate_sample_data_status num_items g :
  Forall status_derived
    (fst (generate_sample_data rng choice randint num_items g)).
Proof.
  unfold generate_sample_data.
  apply (proj2 (sample_loop_spec (seq 1 num_items) [] g)). constructor.
Qed.

Lemma generate_sample_data_length num_items g :
  List.length (fst (generate_sample_data rng choice randint num_items g))
  = num_items.
Proof.
  rewrite <- (length_map ProductID), generate_sample_data_ids.
  rewrite length_map, length_seq. reflexivity.
Qed.

Lemma on_generate_sample_data_state st g :
  fst (fst (on_generate_sample_data rng choice randint st g))
  = {| data := fst (generate_sample_data rng choice randint
                      default_num_items g);
       next_id := default_num_items + 1 |}.
Proof.
  unfold on_generate_sample_data.
  pose proof (generate_sample_data_length default_num_items g) as Hlen.
  destruct (generate_sample_data rng choice randint default_num_items g)
    as [d g'].
  simpl in *. rewrite Hlen. reflexivity.
Qed.

Lemma initialize_data_state g :
  fst (initialize_data rng choice randint g)
  = {| data := fst (generate_sample_data rng choice randint
                      default_num_items g);
       next_id := default_num_items + 1 |}.
Proof.
  unfold initialize_data.
  pose proof (generate_sample_data_length default_num_items g) as Hlen.
  destruct (generate_sample_data rng choice randint default_num_items g)
    as [d g'].
  simpl in *. rewrite Hlen. reflexivity.
Qed.

(** C7.  Every record of the collection carries the derived status
    ("Low Stock" if quantity-available is at most reorder-level, "In
    Stock" otherwise) right after sample generation, right after an add
    to a collection whose records carry it, and so in every session the
    application can reach. *)
Theorem status_derived_after_create :
  (forall num_items g,
      Forall status_derived
        (fst (generate_sample_data rng choice randint num_items g))) /\
  (forall st g,
      Forall status_derived
        (data (fst (fst (on_generate_sample_data rng choice randint st g))))) /\
  (forall name category quantity reorder_level st,
      Forall status_derived (data st) ->
      Forall status_derived
        (data (fst (on_add_product_form name category quantity
                      reorder_level st)))) /\
  (forall st, reachable rng choice randint st ->
              Forall status_derived (data st)).
Proof.
  assert (Hgen : forall st g,
             Forall status_derived
               (data (fst (fst (on_generate_sample_data rng choice randint
                                  st g))))).
  { intros st g. rewrite on_generate_sample_data_state. simpl.
    apply generate_sample_data_status. }
  split; [apply generate_sample_data_status|].
  split; [exact Hgen|].
  split; [intros; apply add_product_status; assumption|].
  intros st Hreach. induction Hreach.
  - rewrite initialize_data_state. simpl. apply generate_sample_data_status.
  - apply add_product_status. exact IHHreach.
  - apply Hgen.
  - constructor.
Qed.
End RandomFacts.

Lemma status_derived_after_create_witness :
  let st := fst (on_add_product_form "Rice" "Grocery" 3 5
                   (fst (on_clear_all_data
                           (fst (initialize_data unit first_choice lowest_int
                                   tt))))) in
  Forall status_derived (data st) /\ map Status (data st) = ["Low Stock"].
Proof.
  split; [|reflexivity].
  apply (proj2 (proj2 (proj2
           (status_derived_after_create unit first_choice lowest_int)))).
  apply reach_add.
  apply (reach_clear unit first_choice lowest_int
           (fst (initialize_data unit first_choice lowest_int tt))).
  apply reach_initialize.
Defined.
(** ** Adding with no name *)

(** C8.  An add with the empty name is refused: the handler shows the error
    "Please enter a product name" and nothing else, and returns the session
    it was given, with the same records and the same counter. *)
Theorem add_product_empty_name_rejected :
  forall product_id category quantity reorder_level st,
    add_product product_id "" category quantity reorder_level st
    = (st, [st_error "Please enter a product name"]) /\
    on_add_product_form "" category quantity reorder_level st
    = (st, [st_error "Please enter a product name"]).
Proof.
  intros. split; reflexivity.
Qed.

(** ** Clearing *)

(** C9.  After "Clear All Data", whatever the collection held, it is empty
    and the counter is 1, so the identifier the form shows next, and the
    one the next product added gets, is P001. *)
Theorem clear_all_resets :
  forall st,
    let st' := fst (on_clear_all_data st) in
    data st' = [] /\
    next_id st' = 1 /\
    product_id_of (next_id st') = "P001" /\
    forall name category quantity reorder_level,
      map ProductID
        (data (fst (on_add_product_form name category quantity reorder_level
                      st')))
      = if String.eqb name "" then [] else ["P001"].
Proof.
  intros st. simpl. repeat split.
  intros name category quantity reorder_level.
  unfold on_add_product_form, add_product. simpl.
  destruct (String.eqb name ""); reflexivity.
Qed.

(** ** Regenerating *)

Lemma fresh_product_id n :
  ~ In (product_id_of (n + 1)) (map product_id_of (seq 1 n)).
Proof.
  intros H. apply in_map_iff in H. destruct H as [j [Hj Hin]].
  apply product_id_of_inj in Hj. apply in_seq in Hin. lia.
Qed.


End InventoryFacts.

(** * The inventory: sessions, identifiers and the dashboard *)

Module DashboardFacts.
Import Inventory.
Import InventoryFacts.
Local Open Scope string_scope.

(** ** Identifiers *)

Lemma length_zeros k s : String.length (zeros k s) = k + String.length s.
Proof. induction k as [|k IH]; simpl; [reflexivity|]. rewrite IH. reflexivity. Qed.

Lemma length_product_id_of i :
  String.length (product_id_of i) = 1 + Nat.max 3 (String.length (str i)).
Proof.
  unfold product_id_of, format_03d. cbn [append String.length].
  rewrite length_zeros. lia.
Qed.

Lemma short_numbers :
  forallb (fun i => (String.length (str i) <=? 3)%nat) (seq 0 1000) = true.
Proof. vm_compute. reflexivity. Qed.

(** X1.  The identifier determines the number it was made from; it is
    never shorter than "P" and three digits, and has exactly that width
    for every number below 1000. *)
Theorem product_id_of_distinct_and_width :
  forall i j,
    (product_id_of i = product_id_of j <-> i = j) /\
    4 <= String.length (product_id_of i) /\
    (i < 1000 -> String.length (product_id_of i) = 4).
Proof.
  intros i j. split; [split; [apply product_id_of_inj|congruence]|].
  rewrite length_product_id_of. split; [lia|].
  intros Hi. pose proof short_numbers as H.
  rewrite forallb_forall in H. specialize (H i).
  rewrite Nat.leb_le in H. rewrite Nat.max_l; [reflexivity|].
  apply H. apply in_seq. lia.
Qed.

Lemma product_id_of_distinct_and_width_witness :
  String.length (product_id_of 21) = 4 /\ product_id_of 21 = "P021".
Proof.
  split; [|reflexivity].
  apply (proj2 (proj2 (product_id_of_distinct_and_width 21 0))). lia.
Defined.

(** ** What every reachable session satisfies *)

Section Sessions.
Variable rng : Type.
Variable choice : list string -> rng -> string * rng.
Variable randint : Z -> Z -> rng -> Z * rng.

Lemma reachable_ids st :
  reachable rng choice randint st ->
  map ProductID (data st) = map product_id_of (seq 1 (List.length (data st))) /\
  next_id st = List.length (data st) + 1.
Proof.
  intros Hreach. induction Hreach as [g|st name category q r _ [IHids IHnext]|st g _ _|st _ _].
  - rewrite initialize_data_state. cbn [data next_id].
    rewrite generate_sample_data_length, generate_sample_data_ids. auto.
  - unfold on_add_product_form, add_product.
    destruct (String.eqb name ""); cbn [fst data next_id]; [auto|].
    rewrite length_app, map_app, IHids, IHnext. cbn [List.length map].
    rewrite Nat.add_1_r, seq_S, map_app. cbn [map].
    rewrite Nat.add_1_r. split; [reflexivity|lia].
  - rewrite on_generate_sample_data_state. cbn [data next_id].
    rewrite generate_sample_data_length, generate_sample_data_ids. auto.
  - simpl. auto.
Qed.

Lemma reachable_status st :
  reachable rng choice randint st -> Forall status_derived (data st).
Proof.
  intros Hreach. induction Hreach.
  - rewrite initialize_data_state. simpl. apply generate_sample_data_status.
  - apply add_product_status. assumption.
  - rewrite on_generate_sample_data_state. simpl.
    apply generate_sample_data_status.
  - constructor.
Qed.

Lemma NoDup_product_ids n : NoDup (map product_id_of (seq 1 n)).
Proof.
  induction n as [|n IH]; [constructor|].
  rewrite seq_S, map_app. apply NoDup_app.
  - exact IH.
  - simpl. constructor; [tauto|constructor].
  - intros a Ha [<-|[]]. rewrite Nat.add_comm in Ha.
    exact (fresh_product_id n Ha).
Qed.

(** X2.  In every session the application can reach, the records carry, in
    order, the identifiers formatted from 1, 2, ... up to their number (so
    P001, P002, ...: "P" and three digits, zero-padded, as long as there
    are fewer than 1000 records), and the counter is that number plus
    one. *)
Theorem reachable_ids_in_sequence :
  forall st, reachable rng choice randint st ->
    map ProductID (data st)
    = map product_id_of (seq 1 (List.length (data st))) /\
    (List.length (data st) < 1000 ->
     map ProductID (data st)
     = map three_digit_id (seq 1 (List.length (data st)))) /\
    next_id st = List.length (data st) + 1.
Proof.
  intros st Hreach. destruct (reachable_ids st Hreach) as [Hids Hnext].
  split; [exact Hids|]. split; [|exact Hnext].
  intros Hlen. rewrite Hids at 1. apply product_ids_three_digits. exact Hlen.
Qed.

(** X3.  In every reachable session no two records share an identifier,
    and the identifier the form shows for the next product is none of
    those in the collection. *)
Theorem reachable_ids_unique :
  forall st, reachable rng choice randint st ->
    NoDup (map ProductID (data st)) /\
    ~ In (product_id_of (next_id st)) (map ProductID (data st)).
Proof.
  intros st Hreach. destruct (reachable_ids st Hreach) as [Hids Hnext].
  rewrite Hids, Hnext. split; [apply NoDup_product_ids|apply fresh_product_id].
Qed.

Lemma unique_string_in l y : In y (unique String.eqb l) <-> In y l.
Proof.
  split.
  - apply unique_acc_in.
  - intros Hin.
    destruct (unique_repr string String.eqb String.eqb_refl l y Hin)
      as [z [Hz Hyz]].
    apply String.eqb_eq in Hyz. subst z. exact Hz.
Qed.

Lemma isin_true x values : isin x values = true <-> In x values.
Proof.
  unfold isin. rewrite existsb_exists. split.
  - intros [y [Hy Hxy]]. apply String.eqb_eq in Hxy. subst y. exact Hy.
  - intros Hin. exists x. split; [exact Hin|apply String.eqb_refl].
Qed.

Lemma filter_all_true {A : Type} (f : A -> bool) l :
  (forall x, In x l -> f x = true) -> filter f l = l.
Proof.
  induction l as [|x l IH]; simpl; intros H; [reflexivity|].
  rewrite (H x) by (left; reflexivity). rewrite IH; [reflexivity|].
  intros y Hy. apply H. right. exact Hy.
Qed.

Lemma status_derived_cases p :
  status_derived p ->
  (Status p = "Low Stock" /\ (QuantityAvailable p <=? ReorderLevel p)%Z = true) \/
  (Status p = "In Stock" /\ (QuantityAvailable p <=? ReorderLevel p)%Z = false).
Proof.
  intros [Hlow Hin].
  destruct (Z.leb_spec (QuantityAvailable p) (ReorderLevel p)); auto.
Qed.

(** X4.  In every reachable session the "Low Stock Items" card, counted by
    comparing quantity with reorder level, agrees with the alerts tab,
    which selects by the stored status: both see the same number of
    records. *)
Theorem low_stock_count_matches_alerts :
  forall st, reachable rng choice randint st ->
    low_stock_count (render_summary_cards (data st))
    = List.length
        (filter (fun p => String.eqb (Status p) "Low Stock") (data st)).
Proof.
  intros st Hreach. apply reachable_status in Hreach.
  unfold render_summary_cards. cbn [low_stock_count]. f_equal.
  apply filter_ext_in. intros p Hp.
  rewrite Forall_forall in Hreach.
  destruct (status_derived_cases p (Hreach p Hp)) as [[-> ->]|[-> ->]];
    reflexivity.
Qed.

(** X5.  In every reachable session, with the selections the two
    multiselects start with (every category present, both statuses), the
    inventory table displays every record, in order. *)
Theorem default_filters_show_everything :
  forall st, reachable rng choice randint st ->
    filtered_df (default_category_filter (data st)) default_status_filter
      (data st)
    = data st.
Proof.
  intros st Hreach. apply reachable_status in Hreach.
  rewrite Forall_forall in Hreach.
  unfold filtered_df. apply filter_all_true. intros p Hp.
  apply andb_true_iff. split.
  - apply isin_true. unfold default_category_filter.
    apply unique_string_in. apply in_map. exact Hp.
  - destruct (status_derived_cases p (Hreach p Hp)) as [[-> _]|[-> _]];
      reflexivity.
Qed.
End Sessions.

Lemma reachable_session0 : reachable unit first_choice lowest_int session0.
Proof. apply reach_initialize. Qed.

Lemma reachable_ids_in_sequence_witness :
  map ProductID (data session0)
  = ["P001"; "P002"; "P003"; "P004"; "P005"; "P006"; "P007"; "P008";
     "P009"; "P010"; "P011"; "P012"; "P013"; "P014"; "P015"; "P016";
     "P017"; "P018"; "P019"; "P020"] /\
  next_id session0 = 21.
Proof.
  destruct (reachable_ids_in_sequence unit first_choice lowest_int session0
              reachable_session0) as [_ [Hids Hnext]].
  split; [|rewrite Hnext; reflexivity].
  rewrite Hids; [reflexivity|]. vm_compute. lia.
Defined.

Lemma reachable_ids_unique_witness :
  NoDup (map ProductID (data session0)) /\
  ~ In "P021" (map ProductID (data session0)).
Proof.
  exact (reachable_ids_unique unit first_choice lowest_int session0
           reachable_session0).
Defined.

Lemma low_stock_count_matches_alerts_witness :
  low_stock_count (render_summary_cards (data session0)) = 20.
Proof.
  rewrite (low_stock_count_matches_alerts unit first_choice lowest_int session0
             reachable_session0).
  reflexivity.
Defined.

Lemma default_filters_show_everything_witness :
  List.length
    (filtered_df (default_category_filter (data session0))
       default_status_filter (data session0)) = 20.
Proof.
  rewrite (default_filters_show_everything unit first_choice lowest_int
             session0 reachable_session0).
  reflexivity.
Defined.

(** ** Sums of an int64 column *)

Lemma wrap64_add_l a b : wrap64 (wrap64 a + b) = wrap64 (a + b).
Proof.
  unfold wrap64. f_equal.
  replace ((a + 2 ^ 63) mod 2 ^ 64 - 2 ^ 63 + b + 2 ^ 63)%Z
    with ((a + 2 ^ 63) mod 2 ^ 64 + b)%Z by lia.
  rewrite Zplus_mod_idemp_l. f_equal. lia.
Qed.

Lemma wrap64_add_r a b : wrap64 (a + wrap64 b) = wrap64 (a + b).
Proof. rewrite Z.add_comm, wrap64_add_l, Z.add_comm. reflexivity. Qed.

Lemma wrap64_small z : (- 2 ^ 63 <= z < 2 ^ 63)%Z -> wrap64 z = z.
Proof. intros Hz. unfold wrap64. rewrite Z.mod_small; lia. Qed.

Lemma Zsum_app l1 l2 : Zsum (l1 ++ l2) = (Zsum l1 + Zsum l2)%Z.
Proof. induction l1 as [|x l1 IH]; simpl; [reflexivity|]. rewrite IH. lia. Qed.

(** ** Adding a product, then the summary cards *)

(** X6.  Adding a product with a non-empty name moves the summary cards as
    follows: one more product; the total quantity grows by the quantity
    added (in int64 arithmetic, so exactly whenever the sum stays within
    int64); the low-stock count grows by one if the quantity is at most
    the reorder level and is unchanged otherwise. *)
Theorem add_product_moves_summary :
  forall name category quantity reorder_level st,
    name <> "" ->
    let before := render_summary_cards (data st) in
    let after :=
      render_summary_cards
        (data (fst (on_add_product_form name category quantity reorder_level
                      st))) in
    total_items after = total_items before + 1 /\
    total_quantity after = wrap64 (total_quantity before + quantity) /\
    ((- 2 ^ 63 <= total_quantity before + quantity < 2 ^ 63)%Z ->
     total_quantity after = (total_quantity before + quantity)%Z) /\
    low_stock_count after
    = low_stock_count before
      + (if (quantity <=? reorder_level)%Z then 1 else 0).
Proof.
  intros name category quantity reorder_level st Hname before after.
  subst before after. unfold on_add_product_form, add_product.
  apply String.eqb_neq in Hname. rewrite Hname.
  cbn [fst data render_summary_cards total_items total_quantity
       low_stock_count].
  assert (Hq : wrap64 (Zsum (map QuantityAvailable
                               (data st ++ [ {| ProductID := product_id_of (next_id st);
                                                Name := name;
                                                Category := category;
                                                QuantityAvailable := quantity;
                                                ReorderLevel := reorder_level;
                                                Status := if (quantity <=? reorder_level)%Z
                                                          then "Low Stock"
                                                          else "In Stock" |} ])))
               = wrap64 (wrap64 (Zsum (map QuantityAvailable (data st)))
                         + quantity)).
  { rewrite map_app, Zsum_app, wrap64_add_l. simpl. f_equal. lia. }
  split; [rewrite length_app; reflexivity|].
  split; [exact Hq|].
  split; [intros Hrange; rewrite Hq; apply wrap64_small; exact Hrange|].
  rewrite filter_app, length_app. cbn [filter QuantityAvailable ReorderLevel].
  destruct (quantity <=? reorder_level)%Z; reflexivity.
Qed.

Lemma add_product_moves_summary_witness :
  let before := render_summary_cards (data session0) in
  let after :=
    render_summary_cards
      (data (fst (on_add_product_form "Rice" "Grocery" 3 5 session0))) in
  total_items after = 21 /\
  total_quantity after = (total_quantity before + 3)%Z /\
  low_stock_count after = low_stock_count before + 1.
Proof.
  destruct (add_product_moves_summary "Rice" "Grocery" 3 5 session0)
    as [Hitems [_ [Hqty Hlow]]]; [discriminate|].
  split; [exact Hitems|]. split; [|exact Hlow].
  apply Hqty. vm_compute. split; [intros H; discriminate H|reflexivity].
Defined.

(** ** Grouping by category *)

Lemma mem_string_in x l : mem String.eqb x l = true <-> In x l.
Proof.
  induction l as [|y l IH]; simpl; [split; [discriminate|tauto]|].
  rewrite orb_true_iff, IH, String.eqb_eq. intuition congruence.
Qed.

Lemma unique_acc_NoDup seen l :
  NoDup (unique_acc String.eqb seen l) /\
  forall y, In y (unique_acc String.eqb seen l) -> ~ In y seen.
Proof.
  revert seen. induction l as [|x l IH]; intros seen; simpl.
  - split; [constructor|tauto].
  - destruct (mem String.eqb x seen) eqn:Hm; [apply IH|].
    destruct (IH (x :: seen)) as [Hnd Hnot]. split.
    + constructor; [|exact Hnd]. intros Hin. apply (Hnot x Hin). left. reflexivity.
    + intros y [<-|Hy].
      * intros Hin. apply mem_string_in in Hin. congruence.
      * intros Hin. apply (Hnot y Hy). right. exact Hin.
Qed.

Lemma NoDup_unique l : NoDup (unique String.eqb l).
Proof. apply unique_acc_NoDup. Qed.

Lemma NoDup_insert_sorted (leb : string -> string -> bool) x l :
  NoDup l -> ~ In x l -> NoDup (insert_sorted leb x l).
Proof.
  induction l as [|y l IH]; simpl; intros Hnd Hnot.
  - constructor; [tauto|constructor].
  - destruct (leb x y); [constructor; assumption|].
    inversion Hnd as [|? ? Hy Hnd']; subst. constructor.
    + rewrite insert_sorted_in. intros [->|H]; [|contradiction].
      apply Hnot. left. reflexivity.
    + apply IH; [exact Hnd'|]. intros H. apply Hnot. right. exact H.
Qed.

Lemma NoDup_sort (leb : string -> string -> bool) l :
  NoDup l -> NoDup (sort leb l).
Proof.
  induction l as [|x l IH]; simpl; intros Hnd; [constructor|].
  inversion Hnd as [|? ? Hx Hnd']; subst.
  apply NoDup_insert_sorted; [apply IH; exact Hnd'|].
  rewrite sort_in. exact Hx.
Qed.

Lemma length_insert_sorted (leb : string -> string -> bool) x l :
  List.length (insert_sorted leb x l) = S (List.length l).
Proof.
  induction l as [|y l IH]; simpl; [reflexivity|].
  destruct (leb x y); simpl; [reflexivity|]. rewrite IH. reflexivity.
Qed.

Lemma length_sort (leb : string -> string -> bool) l :
  List.length (sort leb l) = List.length l.
Proof.
  induction l as [|x l IH]; simpl; [reflexivity|].
  rewrite length_insert_sorted, IH. reflexivity.
Qed.

Lemma Zsum_map_add {A : Type} (f g : A -> Z) l :
  Zsum (map (fun k => (f k + g k)%Z) l) = (Zsum (map f l) + Zsum (map g l))%Z.
Proof. induction l as [|x l IH]; simpl; [reflexivity|]. rewrite IH. lia. Qed.

Lemma Zsum_indicator c q keys :
  Zsum (map (fun k => if String.eqb c k then q else 0%Z) keys)
  = if mem String.eqb c keys then
      (q * Z.of_nat (count String.eqb c keys))%Z
    else 0%Z.
Proof.
  induction keys as [|k keys IH]; simpl; [reflexivity|].
  rewrite IH. destruct (String.eqb c k); simpl.
  - destruct (mem String.eqb c keys) eqn:Hm; [lia|].
    assert (Hc : count String.eqb c keys = 0).
    { clear IH. induction keys as [|k' keys IH']; simpl in *; [reflexivity|].
      apply orb_false_iff in Hm. destruct Hm as [-> Hm]. auto. }
    rewrite Hc. lia.
  - destruct (mem String.eqb c keys); lia.
Qed.

Lemma count_NoDup c keys :
  NoDup keys -> In c keys -> count String.eqb c keys = 1.
Proof.
  induction keys as [|k keys IH]; simpl; intros Hnd Hin; [tauto|].
  inversion Hnd as [|? ? Hk Hnd']; subst.
  destruct (String.eqb_spec c k) as [->|Hne].
  - assert (Hc : count String.eqb k keys = 0).
    { clear IH Hin Hnd Hnd'. induction keys as [|k' keys IH']; simpl; [reflexivity|].
      destruct (String.eqb_spec k k') as [->|_].
      - exfalso. apply Hk. left. reflexivity.
      - apply IH'. intros H. apply Hk. right. exact H. }
    rewrite Hc. reflexivity.
  - destruct Hin as [->|Hin]; [congruence|]. simpl. apply IH; assumption.
Qed.

Lemma Zsum_groups keys df :
  NoDup keys ->
  (forall p, In p df -> In (Category p) keys) ->
  Zsum (map (fun k =>
               Zsum (map QuantityAvailable
                       (filter (fun p => String.eqb (Category p) k) df))) keys)
  = Zsum (map QuantityAvailable df).
Proof.
  intros Hnd. induction df as [|p df IH]; intros Hcov.
  - simpl. clear Hnd Hcov.
    induction keys as [|k keys IHk]; simpl; [reflexivity|exact IHk].
  - rewrite (map_ext
               (fun k => Zsum (map QuantityAvailable
                                 (filter (fun p0 => String.eqb (Category p0) k)
                                    (p :: df))))
               (fun k => ((if String.eqb (Category p) k
                           then QuantityAvailable p else 0)
                          + Zsum (map QuantityAvailable
                                    (filter (fun p0 => String.eqb (Category p0) k)
                                       df)))%Z)).
    + rewrite Zsum_map_add, IH by (intros q Hq; apply Hcov; right; exact Hq).
      rewrite Zsum_indicator.
      assert (Hin : In (Category p) keys) by (apply Hcov; left; reflexivity).
      rewrite (proj2 (mem_string_in _ _) Hin), (count_NoDup _ _ Hnd Hin).
      simpl. lia.
    + intros k. simpl. destruct (String.eqb (Category p) k); reflexivity.
Qed.

Lemma wrap64_Zsum_wrapped {A : Type} (g : A -> Z) l :
  wrap64 (Zsum (map (fun k => wrap64 (g k)) l)) = wrap64 (Zsum (map g l)).
Proof.
  induction l as [|k l IH]; simpl; [reflexivity|].
  rewrite wrap64_add_l, <- wrap64_add_r, IH, wrap64_add_r. reflexivity.
Qed.

(** X7.  The grouped totals behind the two charts have one row per
    category present in the collection, each category once, as many rows
    as the "Categories" card counts, and the group totals add up (in int64
    arithmetic) to the "Total Quantity" card. *)
Theorem groupby_category_sum_partitions :
  forall df,
    let groups := groupby_category_sum df in
    NoDup (map fst groups) /\
    (forall k, In k (map fst groups) <-> exists p, In p df /\ Category p = k) /\
    List.length groups = categories_count (render_summary_cards df) /\
    wrap64 (Zsum (map snd groups)) = total_quantity (render_summary_cards df).
Proof.
  intros df groups. subst groups. unfold groupby_category_sum.
  rewrite !map_map. cbn [fst snd]. rewrite map_id.
  assert (Hkeys : forall k,
             In k (sort String.leb (unique String.eqb (map Category df)))
             <-> exists p, In p df /\ Category p = k).
  { intros k. rewrite sort_in, unique_string_in, in_map_iff.
    split; intros [p Hp]; exists p; tauto. }
  split; [apply NoDup_sort, NoDup_unique|].
  split; [exact Hkeys|].
  split; [rewrite length_map, length_sort; reflexivity|].
  cbn [render_summary_cards total_quantity].
  rewrite (wrap64_Zsum_wrapped
             (fun k => Zsum (map QuantityAvailable
                               (filter (fun p => String.eqb (Category p) k) df)))).
  rewrite Zsum_groups; [reflexivity|apply NoDup_sort, NoDup_unique|].
  intros p Hp. apply Hkeys. exists p. auto.
Qed.

(** ** The alerts tab *)

Lemma ratio_bounds q r :
  (0 <= q <= r)%Z -> (0 < r)%Z ->
  (0 <= inject_Z q / inject_Z r)%Q /\ (inject_Z q / inject_Z r <= 1)%Q.
Proof.
  intros Hq Hr. destruct r as [|r|r]; try lia.
  unfold Qdiv, Qmult, Qinv, Qle, inject_Z. simpl. split; lia.
Qed.

Lemma alert_cards_shown rows :
  (forall p, In p rows ->
             (0 <= QuantityAvailable p <= ReorderLevel p)%Z /\
             (0 < ReorderLevel p)%Z) ->
  forall idx, exists cards,
    alert_cards idx rows = Shown cards /\
    List.length cards = List.length rows /\
    Forall alert_ok cards.
Proof.
  induction rows as [|row rows IH]; intros Hrows idx.
  - exists []. simpl. repeat split. constructor.
  - destruct (Hrows row (or_introl eq_refl)) as [Hq Hr].
    destruct (IH (fun p Hp => Hrows p (or_intror Hp)) (S idx))
      as [cards [Hcards [Hlen Hok]]].
    destruct (ratio_bounds _ _ Hq Hr) as [H0 H1].
    cbn [alert_cards]. unfold true_div.
    replace (ReorderLevel row =? 0)%Z with false
      by (symmetry; apply Z.eqb_neq; lia).
    unfold st_progress.
    rewrite (proj2 (Qle_bool_iff _ _) H0), (proj2 (Qle_bool_iff _ _) H1).
    cbn [andb]. rewrite Hcards. eexists. split; [reflexivity|].
    split; [simpl; rewrite Hlen; reflexivity|].
    constructor; [|exact Hok].
    unfold alert_ok. cbn [alert_progress alert_column].
    split; [exact H0|]. split; [exact H1|]. apply Nat.mod_upper_bound. lia.
Qed.

(** X19.  When the alerts loop runs to its end, it has made one card per
    row, in the order of the rows (each titled with the name and the
    identifier of its row), and dealt them to the three columns in turn:
    the k-th card sits in column k mod 3. *)
Theorem alert_cards_round_robin :
  forall rows idx cards,
    alert_cards idx rows = Shown cards ->
    map alert_title cards
    = map (fun row => "**" ++ Name row ++ "** (" ++ ProductID row ++ ")") rows /\
    map alert_column cards
    = map (fun k => (idx + k) mod 3) (seq 0 (List.length rows)).
Proof.
  induction rows as [|row rows IH]; intros idx cards.
  - simpl. intros [= <-]. auto.
  - cbn [alert_cards].
    destruct (true_div (QuantityAvailable row) (ReorderLevel row))
      as [ratio|e]; [|discriminate].
    destruct (st_progress ratio) as [value|e]; [|discriminate].
    destruct (alert_cards (S idx) rows) as [rest|e] eqn:Hrest; [|discriminate].
    intros [= <-]. destruct (IH (S idx) rest Hrest) as [Htitles Hcols].
    cbn [map alert_title alert_column List.length seq].
    rewrite Htitles, Hcols, Nat.add_0_r, <- seq_shift, map_map.
    split; [reflexivity|]. f_equal. apply map_ext. intros k.
    f_equal. lia.
Qed.

Lemma alert_cards_round_robin_witness :
  exists cards,
    alert_cards 0 (data session0) = Shown cards /\
    firstn 4 (map alert_column cards) = [0; 1; 2; 0].
Proof.
  destruct (alert_cards 0 (data session0)) as [cards|e] eqn:Hrun;
    [|vm_compute in Hrun; discriminate Hrun].
  exists cards. split; [reflexivity|].
  rewrite (proj2 (alert_cards_round_robin (data session0) 0 cards Hrun)).
  reflexivity.
Defined.

Lemma alert_cards_raised rows p :
  In p rows -> ReorderLevel p = 0%Z ->
  forall idx, exists e, alert_cards idx rows = Raised e.
Proof.
  induction rows as [|row rows IH]; intros Hin Hzero idx; [destruct Hin|].
  cbn [alert_cards].
  destruct (true_div (QuantityAvailable row) (ReorderLevel row)) as [ratio|e]
    eqn:Hdiv; [|eauto].
  destruct (st_progress ratio) as [value|e]; [|eauto].
  destruct Hin as [->|Hin].
  - unfold true_div in Hdiv. rewrite Hzero in Hdiv. discriminate.
  - destruct (IH Hin Hzero (S idx)) as [e He]. rewrite He. eauto.
Qed.

Lemma render_dashboard_raised cf sf st e :
  render_alerts_section (data st) = Raised e ->
  render_dashboard cf sf st = Raised e.
Proof.
  unfold render_dashboard. destruct (data st) as [|p df] eqn:Hd.
  - discriminate.
  - intros ->. reflexivity.
Qed.

Lemma render_alerts_section_shown :
  forall df,
    (forall p, In p df -> Status p = "Low Stock" ->
               (0 <= QuantityAvailable p <= ReorderLevel p)%Z /\
               (0 < ReorderLevel p)%Z) ->
    let low_stock := filter (fun p => String.eqb (Status p) "Low Stock") df in
    (low_stock = [] /\ render_alerts_section df = Shown all_stocked) \/
    (low_stock <> [] /\
     exists cards,
       render_alerts_section df = Shown (alerts cards) /\
       List.length cards = List.length low_stock /\
       Forall alert_ok cards).
Proof.
  intros df Hdf low_stock. unfold render_alerts_section. fold low_stock.
  assert (Hrows : forall p, In p low_stock ->
                    (0 <= QuantityAvailable p <= ReorderLevel p)%Z /\
                    (0 < ReorderLevel p)%Z).
  { intros p Hp. apply filter_In in Hp. destruct Hp as [Hin Hst].
    apply Hdf; [exact Hin|apply String.eqb_eq; exact Hst]. }
  destruct (alert_cards_shown low_stock Hrows 0) as [cards [Hc [Hlen Hok]]].
  destruct low_stock as [|p rows] eqn:Hlow.
  - left. auto.
  - right. split; [discriminate|]. exists cards. rewrite Hc. auto.
Qed.

(** X8.  When every low-stock record has a quantity between 0 and its
    reorder level and a positive reorder level, the alerts tab renders:
    either the all-stocked message, exactly when no record is low on stock,
    or one card per low-stock record, each with a progress value between 0
    and 1 and placed in one of the three columns. *)
Theorem alerts_render_within_bounds :
  forall df,
    (forall p, In p df -> Status p = "Low Stock" ->
               (0 <= QuantityAvailable p <= ReorderLevel p)%Z /\
               (0 < ReorderLevel p)%Z) ->
    let low_stock := filter (fun p => String.eqb (Status p) "Low Stock") df in
    (low_stock = [] /\ render_alerts_section df = Shown all_stocked) \/
    (low_stock <> [] /\
     exists cards,
       render_alerts_section df = Shown (alerts cards) /\
       List.length cards = List.length low_stock /\
       Forall alert_ok cards).
Proof. exact render_alerts_section_shown. Qed.

Lemma alerts_render_within_bounds_witness :
  exists cards,
    render_alerts_section (data session0) = Shown (alerts cards) /\
    List.length cards = 20.
Proof.
  destruct (alerts_render_within_bounds (data session0)) as [[H _]|[_ H]].
  - intros p Hp _. vm_compute in Hp.
    repeat (destruct Hp as [<-|Hp]; [vm_compute; repeat split; discriminate|]).
    destruct Hp.
  - discriminate H.
  - destruct H as [cards [Hrun [Hlen _]]]. exists cards. split; [exact Hrun|].
    rewrite Hlen. reflexivity.
Defined.

(** X9.  A low-stock record whose reorder level is 0 makes the alerts tab,
    and with it the dashboard, raise instead of rendering.  The form lets
    such a record in (both number inputs start at 0): after adding a named
    product with quantity 0 and reorder level 0 the dashboard raises, and
    on an otherwise empty collection what is raised is the division by
    zero of [QuantityAvailable / ReorderLevel]. *)
Theorem zero_reorder_level_breaks_dashboard :
  (forall df p,
      In p df -> Status p = "Low Stock" -> ReorderLevel p = 0%Z ->
      exists e, render_alerts_section df = Raised e) /\
  (forall cf sf name category st,
      name <> "" ->
      exists e,
        render_dashboard cf sf (fst (on_add_product_form name category 0 0 st))
        = Raised e) /\
  (forall cf sf name category st,
      name <> "" ->
      render_dashboard cf sf
        (fst (on_add_product_form name category 0 0
                (fst (on_clear_all_data st))))
      = Raised ZeroDivisionError).
Proof.
  assert (Halerts : forall df p,
             In p df -> Status p = "Low Stock" -> ReorderLevel p = 0%Z ->
             exists e, render_alerts_section df = Raised e).
  { intros df p Hin Hst Hzero. unfold render_alerts_section.
    assert (Hlow : In p (filter (fun p => String.eqb (Status p) "Low Stock") df)).
    { apply filter_In. split; [exact Hin|]. rewrite Hst. reflexivity. }
    destruct (alert_cards_raised _ p Hlow Hzero 0) as [e He].
    destruct (filter (fun p => String.eqb (Status p) "Low Stock") df);
      [destruct Hlow|].
    rewrite He. eauto. }
  split; [exact Halerts|]. split.
  - intros cf sf name category st Hname.
    apply String.eqb_neq in Hname.
    set (new := {| ProductID := product_id_of (next_id st); Name := name;
                   Category := category; QuantityAvailable := 0;
                   ReorderLevel := 0; Status := "Low Stock" |}).
    destruct (Halerts (data st ++ [new])%list new) as [e He];
      [apply in_or_app; right; left; reflexivity|reflexivity|reflexivity|].
    exists e. apply render_dashboard_raised.
    unfold on_add_product_form, add_product. rewrite Hname. exact He.
  - intros cf sf name category st Hname.
    apply String.eqb_neq in Hname.
    unfold on_add_product_form, add_product. rewrite Hname. reflexivity.
Qed.

Lemma zero_reorder_level_breaks_dashboard_witness :
  render_dashboard default_status_filter default_status_filter
    (fst (on_add_product_form "Rice" "Grocery" 0 0
            (fst (on_clear_all_data session0))))
  = Raised ZeroDivisionError.
Proof.
  apply (proj2 (proj2 zero_reorder_level_breaks_dashboard)). discriminate.
Defined.

(** ** Sample data under the contract of [random] *)

Section SampleData.
Variable rng : Type.
Variable choice : list string -> rng -> string * rng.
Variable randint : Z -> Z -> rng -> Z * rng.
Hypothesis contract : random_contract rng choice randint.

Lemma sample_item_ranges i acc g :
  exists p g',
    sample_item rng choice randint i (acc, g) = ((acc ++ [p])%list, g') /\
    sample_ranges p /\ status_derived p.
Proof.
  destruct contract as [Hchoice Hrandint].
  unfold sample_item.
  pose proof (Hchoice CATEGORIES g) as Hcat.
  destruct (choice CATEGORIES g) as [category g1].
  destruct (choice PRODUCT_NAMES g1) as [base g2].
  destruct (randint 100%Z 999%Z g2) as [suffix g3].
  pose proof (Hrandint 0%Z 100%Z g3) as Hq.
  destruct (randint 0%Z 100%Z g3) as [quantity g4].
  pose proof (Hrandint 5%Z 30%Z g4) as Hr.
  destruct (randint 5%Z 30%Z g4) as [reorder_level g5].
  do 2 eexists. split; [reflexivity|]. split; [|apply status_derived_new].
  unfold sample_ranges. cbn [Category QuantityAvailable ReorderLevel fst] in *.
  split; [apply Hcat; discriminate|]. split; [apply Hq; lia|apply Hr; lia].
Qed.

Lemma sample_loop_ranges l acc g :
  Forall sample_ranges acc ->
  Forall sample_ranges
    (fst (fold_left (fun acc i => sample_item rng choice randint i acc) l
            (acc, g))).
Proof.
  revert acc g. induction l as [|i l IH]; intros acc g Hacc; cbn [fold_left].
  - exact Hacc.
  - destruct (sample_item_ranges i acc g) as [p [g' [-> [Hp _]]]].
    apply IH. apply Forall_app. split; [exact Hacc|].
    constructor; [exact Hp|constructor].
Qed.

(** X10.  If [choice] returns a member of its sequence and [randint(a, b)]
    an int between [a] and [b], every record of [generate_sample_data] has
    one of the five categories, a quantity between 0 and 100 and a reorder
    level between 5 and 30. *)
Theorem generate_sample_data_ranges :
  forall num_items g,
    Forall sample_ranges
      (fst (generate_sample_data rng choice randint num_items g)).
Proof.
  intros num_items g. unfold generate_sample_data.
  apply sample_loop_ranges. constructor.
Qed.

Lemma sample_data_renders cf sf st g :
  data st = fst (generate_sample_data rng choice randint default_num_items g) ->
  exists tab3,
    render_dashboard cf sf st
    = Shown (panels (render_summary_cards (data st))
               (filtered_df cf sf (data st))
               (groupby_category_sum (data st)) tab3) /\
    total_items (render_summary_cards (data st)) = default_num_items.
Proof.
  intros Hd.
  assert (Hlen : List.length (data st) = default_num_items).
  { rewrite Hd. apply generate_sample_data_length. }
  assert (Hranges : Forall sample_ranges (data st)).
  { rewrite Hd. unfold generate_sample_data. apply sample_loop_ranges.
    constructor. }
  assert (Hstatus : Forall status_derived (data st)).
  { rewrite Hd. apply generate_sample_data_status. }
  rewrite Forall_forall in Hranges, Hstatus.
  assert (Hview : exists tab3, render_alerts_section (data st) = Shown tab3).
  { destruct (render_alerts_section_shown (data st)) as [[_ H]|[_ [cards [H _]]]];
      [|eauto|eauto].
    intros p Hp Hlow. destruct (Hranges p Hp) as [_ [Hq Hr]].
    destruct (status_derived_cases p (Hstatus p Hp)) as [[_ Hle]|[Hin _]];
      [|rewrite Hlow in Hin; discriminate].
    apply Z.leb_le in Hle. lia. }
  destruct Hview as [tab3 Htab]. exists tab3. split; [|exact Hlen].
  unfold render_dashboard. rewrite Htab.
  destruct (data st) as [|p df]; [discriminate Hlen|reflexivity].
Qed.

(** X11.  Under the same contract, the dashboard of a fresh session, and of
    a session whose sample data were just regenerated, renders all its
    panels (no warning, nothing raised), with 20 products on the first
    card. *)
Theorem sample_data_dashboard_renders :
  forall cf sf g,
    (exists tab3,
        let st := fst (initialize_data rng choice randint g) in
        render_dashboard cf sf st
        = Shown (panels (render_summary_cards (data st))
                   (filtered_df cf sf (data st))
                   (groupby_category_sum (data st)) tab3) /\
        total_items (render_summary_cards (data st)) = 20) /\
    (forall st0, exists tab3,
        let st := fst (fst (on_generate_sample_data rng choice randint st0 g)) in
        render_dashboard cf sf st
        = Shown (panels (render_summary_cards (data st))
                   (filtered_df cf sf (data st))
                   (groupby_category_sum (data st)) tab3) /\
        total_items (render_summary_cards (data st)) = 20).
Proof.
  intros cf sf g. split.
  - apply (sample_data_renders cf sf _ g).
    rewrite initialize_data_state. reflexivity.
  - intros st0. apply (sample_data_renders cf sf _ g).
    rewrite on_generate_sample_data_state. reflexivity.
Qed.
End SampleData.

Lemma first_lowest_contract : random_contract unit first_choice lowest_int.
Proof.
  split.
  - intros [|x l] g Hl; [congruence|left; reflexivity].
  - intros a b g Hab. simpl. lia.
Qed.

Lemma generate_sample_data_ranges_witness :
  Forall sample_ranges (data session0).
Proof.
  exact (generate_sample_data_ranges unit first_choice lowest_int
           first_lowest_contract 20 tt).
Defined.

Lemma sample_data_dashboard_renders_witness :
  exists tab3,
    render_dashboard ["Electronics"] ["Low Stock"] session0
    = Shown (panels (render_summary_cards (data session0))
               (data session0) (groupby_category_sum (data session0)) tab3).
Proof.
  destruct (proj1 (sample_data_dashboard_renders unit first_choice lowest_int
                     first_lowest_contract ["Electronics"] ["Low Stock"] tt))
    as [tab3 [Hrun _]].
  exists tab3. exact Hrun.
Defined.
End DashboardFacts.

(** * The cleaner: what cleaning keeps, and what it can add *)

Module CleanerMore.
Import Cleaner.
Import CleanerFacts.

(** ** Cells that were present *)

Lemma keeps_present_refl {A : Type} (l : list (option A)) : keeps_present l l.
Proof. split; auto. Qed.

Lemma keeps_present_fill {A : Type} (v : A) (l : list (option A)) :
  keeps_present l (map (fill v) l).
Proof.
  split; [apply length_map|].
  intros r x Hr. rewrite nth_error_map, Hr. reflexivity.
Qed.

Lemma keeps_present_map {A B : Type} (f : A -> B) (l l' : list (option A)) :
  keeps_present l l' ->
  keeps_present (map (option_map f) l) (map (option_map f) l').
Proof.
  intros [Hlen Hcells]. split; [rewrite !length_map; exact Hlen|].
  intros r y. rewrite !nth_error_map.
  destruct (nth_error l r) as [[x|]|] eqn:Hr; simpl; try discriminate.
  intros [= <-]. rewrite (Hcells r x Hr). reflexivity.
Qed.

Lemma cells_impute_column fill_method s :
  keeps_present (cells s) (cells (impute_column fill_method s)).
Proof.
  destruct s as [l|l]; simpl.
  - destruct (match fill_method with
              | Mean => nanmean l
              | Median => nanmedian l
              | Mode => hd_error (modes Qeq_bool Qle_bool (present l))
              end); simpl; apply keeps_present_map;
      [apply keeps_present_fill|apply keeps_present_refl].
  - destruct fill_method; try apply keeps_present_refl.
    destruct (hd_error (modes String.eqb String.leb (present l))); simpl;
      apply keeps_present_map;
      [apply keeps_present_fill|apply keeps_present_refl].
Qed.

(** X12.  Whatever the method and the option, cleaning keeps the shape and
    the data of the table: the same labels in the same order, and each
    column with its number of rows and every cell that was present
    unchanged.  Only missing cells are ever written. *)
Theorem clean_data_keeps_present_cells :
  forall fill_method exclude_cols d,
    well_formed d ->
    exists out remaining msg,
      clean_data fill_method exclude_cols d = Ok (out, remaining, msg) /\
      columns out = columns d /\
      forall i name s,
        nth_error d i = Some (name, s) ->
        exists s', nth_error out i = Some (name, s') /\
                   keeps_present (cells s) (cells s').
Proof.
  intros fill_method exclude_cols d Hwf. do 3 eexists.
  split; [apply clean_data_run; exact Hwf|].
  split; [apply columns_impute|].
  intros i name s Hi. eexists.
  split; [apply (nth_error_impute _ _ _ _ _ _ Hi)|].
  destruct (in_scope exclude_cols s);
    [apply cells_impute_column|apply keeps_present_refl].
Qed.

Lemma clean_data_keeps_present_cells_witness :
  exists out remaining msg,
    clean_data Mode false mixed_table = Ok (out, remaining, msg) /\
    exists s', nth_error out 0 = Some ("Name"%string, s') /\
               nth_error (cells s') 2 = Some (Some (PyStr "Kumar")).
Proof.
  destruct (clean_data_keeps_present_cells Mode false mixed_table
              well_formed_mixed_table)
    as [out [remaining [msg [Hrun [_ Hcols]]]]].
  exists out, remaining, msg. split; [exact Hrun|].
  destruct (Hcols 0 "Name"%string _ eq_refl) as [s' [Hs' [_ Hkept]]].
  exists s'. split; [exact Hs'|]. apply Hkept. reflexivity.
Defined.

(** ** The count of missing cells *)

Lemma count_null_map_fill_le {A : Type} (v : A) (l : list (option A)) :
  count_null (map (fill v) l) <= count_null l.
Proof. rewrite count_null_map_fill. lia. Qed.

Lemma isnull_sum_impute_column fill_method s :
  isnull_sum (impute_column fill_method s) <= isnull_sum s.
Proof.
  destruct s as [l|l]; simpl.
  - destruct (match fill_method with
              | Mean => nanmean l
              | Median => nanmedian l
              | Mode => hd_error (modes Qeq_bool Qle_bool (present l))
              end); simpl; [apply count_null_map_fill_le|lia].
  - destruct fill_method; try (simpl; lia).
    destruct (hd_error (modes String.eqb String.leb (present l))); simpl;
      [apply count_null_map_fill_le|lia].
Qed.

Lemma isnull_sum_sum_impute fill_method exclude_cols d :
  isnull_sum_sum (impute fill_method exclude_cols d) <= isnull_sum_sum d.
Proof.
  induction d as [|[name s] d IH]; simpl; [lia|].
  destruct (in_scope exclude_cols s); simpl.
  - pose proof (isnull_sum_impute_column fill_method s). lia.
  - lia.
Qed.

(** X13.  The count of missing cells the block reports is never larger
    than the number of cells that were missing in the uploaded table. *)
Theorem remaining_missing_never_grows :
  forall fill_method exclude_cols d,
    well_formed d ->
    exists out remaining msg,
      clean_data fill_method exclude_cols d = Ok (out, remaining, msg) /\
      remaining = isnull_sum_sum out /\
      remaining <= isnull_sum_sum d.
Proof.
  intros fill_method exclude_cols d Hwf. do 3 eexists.
  split; [apply clean_data_run; exact Hwf|].
  split; [reflexivity|apply isnull_sum_sum_impute].
Qed.

Lemma remaining_missing_never_grows_witness :
  exists out remaining msg,
    clean_data Mean false mixed_table = Ok (out, remaining, msg) /\
    remaining <= 2.
Proof.
  destruct (remaining_missing_never_grows Mean false mixed_table
              well_formed_mixed_table)
    as [out [remaining [msg [Hrun [_ Hle]]]]].
  exists out, remaining, msg. split; [exact Hrun|exact Hle].
Defined.

(** ** A table with nothing missing *)

Lemma isnull_sum_sum_zero d name s :
  isnull_sum_sum d = 0 -> In (name, s) d -> isnull_sum s = 0.
Proof.
  induction d as [|c d IH]; simpl; [tauto|].
  intros Hz [->|Hin]; [simpl in Hz; lia|]. apply IH; [lia|exact Hin].
Qed.

Lemma impute_no_null fill_method exclude_cols d :
  isnull_sum_sum d = 0 -> impute fill_method exclude_cols d = d.
Proof.
  intros Hz. unfold impute. rewrite <- (map_id d) at 2.
  apply map_ext_in. intros [name s] Hin. simpl.
  destruct (in_scope exclude_cols s); [|reflexivity].
  rewrite impute_column_no_null; [reflexivity|].
  eapply isnull_sum_sum_zero; eauto.
Qed.

(** X14.  On a table with no missing cell the block changes nothing: it
    returns the table as uploaded, reports 0 and the success message, for
    every method and option. *)
Theorem clean_data_complete_table_unchanged :
  forall fill_method exclude_cols d,
    well_formed d -> isnull_sum_sum d = 0 ->
    clean_data fill_method exclude_cols d = Ok (d, 0, success).
Proof.
  intros fill_method exclude_cols d Hwf Hz.
  rewrite clean_data_run by exact Hwf.
  rewrite impute_no_null by exact Hz. rewrite Hz. reflexivity.
Qed.

Lemma clean_data_complete_table_unchanged_witness :
  clean_data Median true scenario_cleaned = Ok (scenario_cleaned, 0, success).
Proof.
  apply clean_data_complete_table_unchanged; [|reflexivity].
  unfold well_formed, scenario_cleaned. simpl.
  repeat constructor; simpl; intuition discriminate.
Defined.

(** ** The option under Mean and Median *)

(** X15.  Under Mean and under Median the "exclude non-numeric columns"
    option makes no difference: the block returns the same table, count and
    message with it and without it. *)
Theorem exclude_option_idle_under_mean_median :
  forall fill_method d,
    fill_method = Mean \/ fill_method = Median ->
    well_formed d ->
    clean_data fill_method true d = clean_data fill_method false d.
Proof.
  intros fill_method d Hm Hwf.
  rewrite !clean_data_run by exact Hwf.
  assert (E : impute fill_method true d = impute fill_method false d).
  { unfold impute. apply map_ext. intros [name [l|l]]; simpl; [reflexivity|].
    destruct Hm as [-> | ->]; reflexivity. }
  rewrite E. reflexivity.
Qed.

Lemma exclude_option_idle_under_mean_median_witness :
  clean_data Median true mixed_table = clean_data Median false mixed_table.
Proof.
  apply exclude_option_idle_under_mean_median;
    [right; reflexivity|exact well_formed_mixed_table].
Defined.

(** ** Tables that Mode fills completely *)

Lemma present_nonempty {A : Type} (l : list (option A)) :
  0 < List.length (present l) -> present l <> [].
Proof. destruct (present l); simpl; [lia|discriminate]. Qed.

Lemma impute_column_mode_filled s :
  0 < n_present s -> isnull_sum (impute_column Mode s) = 0.
Proof.
  destruct s as [l|l]; simpl; intros Hn; apply present_nonempty in Hn.
  - destruct (Qmodes_head _ Hn) as [v [-> _]]. apply count_null_map_fill.
  - destruct (string_modes_head _ Hn) as [v [-> _]]. apply count_null_map_fill.
Qed.

Lemma in_impute fill_method exclude_cols d name s' :
  In (name, s') (impute fill_method exclude_cols d) ->
  exists s, In (name, s) d /\
    s' = if in_scope exclude_cols s then impute_column fill_method s else s.
Proof.
  unfold impute. rewrite in_map_iff. intros [[n s] [Heq Hin]]. simpl in Heq.
  exists s. destruct (in_scope exclude_cols s); inversion Heq; subst; auto.
Qed.

Lemma isnull_sum_sum_all_zero d :
  (forall name s, In (name, s) d -> isnull_sum s = 0) -> isnull_sum_sum d = 0.
Proof.
  induction d as [|[name s] d IH]; simpl; intros H; [reflexivity|].
  rewrite (H name s) by (left; reflexivity). rewrite IH; [reflexivity|].
  intros n s' Hin. apply (H n s'). right. exact Hin.
Qed.

(** X16.  Under Mode, when every column is in scope and has at least one
    present value, the block fills the table completely: no cell of the
    result is missing, the count it reports is 0 and the message is the
    success message. *)
Theorem clean_data_mode_fills_table :
  forall exclude_cols d,
    well_formed d ->
    (forall name s, In (name, s) d ->
       in_scope exclude_cols s = true /\ 0 < n_present s) ->
    exists out,
      clean_data Mode exclude_cols d = Ok (out, 0, success) /\
      forall name s, In (name, s) out -> isnull_sum s = 0.
Proof.
  intros exclude_cols d Hwf Hall.
  assert (Hfilled : forall name s,
             In (name, s) (impute Mode exclude_cols d) -> isnull_sum s = 0).
  { intros name s' Hin. apply in_impute in Hin. destruct Hin as [s [Hin ->]].
    destruct (Hall name s Hin) as [-> Hn].
    apply impute_column_mode_filled. exact Hn. }
  exists (impute Mode exclude_cols d). split; [|exact Hfilled].
  rewrite clean_data_run by exact Hwf.
  rewrite (isnull_sum_sum_all_zero _ Hfilled). reflexivity.
Qed.

Lemma clean_data_mode_fills_table_witness :
  exists out, clean_data Mode false mixed_table = Ok (out, 0, success).
Proof.
  destruct (clean_data_mode_fills_table false mixed_table
              well_formed_mixed_table) as [out [Hrun _]].
  - intros name s Hin. simpl in Hin.
    destruct Hin as [H|[H|[]]]; inversion H; subst; simpl; split;
      try reflexivity; lia.
  - exists out. exact Hrun.
Defined.

(** ** The sidebar report *)

Lemma missing_report_total d :
  fold_right (fun line n => snd line + n) 0 (missing_report d)
  = isnull_sum_sum d.
Proof.
  unfold missing_report, missing_values.
  induction d as [|[name s] d IH]; simpl; [reflexivity|].
  destruct (isnull_sum s) as [|k] eqn:E; simpl; rewrite IH; reflexivity.
Qed.

(** X17.  The lines the sidebar writes are those of the columns with a
    missing cell, in the order of the table, each with a positive count;
    the counts add up to the number of missing cells of the table, so the
    sidebar writes no line exactly when nothing is missing. *)
Theorem missing_report_lists_columns_with_missing :
  forall d,
    map fst (missing_report d)
    = columns (filter (fun c => 0 <? isnull_sum (snd c)) d) /\
    (forall col n, In (col, n) (missing_report d) -> 0 < n) /\
    fold_right (fun line n => snd line + n) 0 (missing_report d)
    = isnull_sum_sum d /\
    (missing_report d = [] <-> isnull_sum_sum d = 0).
Proof.
  intros d. split; [|split; [|split; [apply missing_report_total|]]].
  - unfold missing_report, missing_values, columns.
    induction d as [|[name s] d IH]; simpl; [reflexivity|].
    destruct (0 <? isnull_sum s); simpl; rewrite IH; reflexivity.
  - intros col n Hin. unfold missing_report in Hin.
    apply filter_In in Hin. destruct Hin as [_ Hpos].
    apply Nat.ltb_lt in Hpos. exact Hpos.
  - rewrite <- missing_report_total. split; [intros ->; reflexivity|].
    intros Hz. destruct (missing_report d) as [|[col n] rest] eqn:E;
      [reflexivity|].
    assert (Hpos : 0 < n).
    { assert (Hin : In (col, n) (missing_report d))
        by (rewrite E; left; reflexivity).
      unfold missing_report in Hin. apply filter_In in Hin.
      destruct Hin as [_ Hpos]. apply Nat.ltb_lt in Hpos. exact Hpos. }
    simpl in Hz. lia.
Qed.

Lemma missing_report_lists_columns_with_missing_witness :
  missing_report mixed_table = [("Name"%string, 1); ("Age"%string, 1)] /\
  0 < 1.
Proof.
  split; [reflexivity|].
  apply (proj1 (proj2 (missing_report_lists_columns_with_missing mixed_table))
           "Name"%string 1).
  left. reflexivity.
Defined.

(** ** Mode writes values that were observed *)

Lemma present_map_fill {A : Type} (v : A) (l : list (option A)) x :
  In x (present (map (fill v) l)) -> x = v \/ In x (present l).
Proof.
  unfold present. induction l as [|[y|] l IH]; simpl; [tauto| |].
  - intros [->|H]; [right; left; reflexivity|].
    destruct (IH H); [left|right; right]; assumption.
  - intros [<-|H]; [left; reflexivity|]. apply IH. exact H.
Qed.

Lemma hd_modes_in {A : Type} (eqb leb : A -> A -> bool) (l : list A) v :
  hd_error (modes eqb leb l) = Some v -> In v l.
Proof.
  unfold modes. intros E.
  apply (most_frequent_in A eqb l). apply (sort_in A leb).
  destruct (sort leb (most_frequent eqb l)); [discriminate|].
  injection E as ->. left. reflexivity.
Qed.

Lemma impute_column_mode_observed s :
  match s, impute_column Mode s with
  | Float64 l, Float64 l' => forall v, In v (present l') -> In v (present l)
  | Object l, Object l' => forall v, In v (present l') -> In v (present l)
  | _, _ => False
  end.
Proof.
  destruct s as [l|l]; simpl.
  - destruct (hd_error (modes Qeq_bool Qle_bool (present l))) as [m|] eqn:E;
      [|auto].
    intros v Hv. apply present_map_fill in Hv. destruct Hv as [->|Hv]; [|exact Hv].
    eapply hd_modes_in. exact E.
  - destruct (hd_error (modes String.eqb String.leb (present l))) as [m|] eqn:E;
      [|auto].
    intros v Hv. apply present_map_fill in Hv. destruct Hv as [->|Hv]; [|exact Hv].
    eapply hd_modes_in. exact E.
Qed.

(** X18.  Under Mode cleaning never brings a new value into a column:
    every value of a column of the result was present in that column of
    the uploaded table, so the values of a numeric column stay within any
    range that held the observed ones. *)
Theorem mode_fills_with_observed_values :
  forall exclude_cols d i name,
    well_formed d ->
    exists out remaining msg,
      clean_data Mode exclude_cols d = Ok (out, remaining, msg) /\
      (forall l, nth_error d i = Some (name, Float64 l) ->
         exists l', nth_error out i = Some (name, Float64 l') /\
           (forall v, In v (present l') -> In v (present l)) /\
           (forall lo hi, within lo hi l -> within lo hi l')) /\
      (forall l, nth_error d i = Some (name, Object l) ->
         exists l', nth_error out i = Some (name, Object l') /\
           (forall v, In v (present l') -> In v (present l))).
Proof.
  intros exclude_cols d i name Hwf. do 3 eexists.
  split; [apply clean_data_run; exact Hwf|]. split.
  - intros l Hi. rewrite (nth_error_impute _ _ _ _ _ _ Hi).
    pose proof (impute_column_mode_observed (Float64 l)) as Hobs.
    cbv beta iota in Hobs.
    destruct (in_scope exclude_cols (Float64 l)).
    + destruct (impute_column Mode (Float64 l)) as [l'|l']; [|destruct Hobs].
      exists l'. split; [reflexivity|]. split; [exact Hobs|].
      intros lo hi Hl v Hv. apply Hl. apply Hobs. exact Hv.
    + exists l. split; [reflexivity|]. split; auto.
  - intros l Hi. rewrite (nth_error_impute _ _ _ _ _ _ Hi).
    pose proof (impute_column_mode_observed (Object l)) as Hobs.
    cbv beta iota in Hobs.
    destruct (in_scope exclude_cols (Object l)).
    + destruct (impute_column Mode (Object l)) as [l'|l']; [destruct Hobs|].
      exists l'. split; [reflexivity|exact Hobs].
    + exists l. split; [reflexivity|auto].
Qed.

Lemma mode_fills_with_observed_values_witness :
  exists out remaining msg l',
    clean_data Mode false tie_table = Ok (out, remaining, msg) /\
    nth_error out 0 = Some ("Name"%string, Object l') /\
    forall v, In v (present l') -> v = "b"%string \/ v = "a"%string.
Proof.
  destruct (mode_fills_with_observed_values false tie_table 0 "Name"%string
              well_formed_tie_table)
    as [out [remaining [msg [Hrun [_ Hobj]]]]].
  destruct (Hobj _ eq_refl) as [l' [Hl' Hobs]].
  exists out, remaining, msg, l'. split; [exact Hrun|]. split; [exact Hl'|].
  intros v Hv. apply Hobs in Hv. simpl in Hv.
  destruct Hv as [<-|[<-|[<-|[<-|[]]]]]; auto.
Defined.
End CleanerMore.

(** * The cleaner over doubles: what Mean writes *)

Module Cleaner64Facts.
Import Cleaner.
Import Cleaner64.

Section Sum.
Variable np_sum : list float -> float.

Lemma replace_column64_same col f d s :
  lookup col d = Some s -> f s = s -> replace_column col f d = d.
Proof.
  induction d as [|[name s'] d IH]; simpl; [discriminate|].
  destruct (String.eqb col name).
  - intros [= ->] ->. reflexivity.
  - intros H1 H2. rewrite IH; auto.
Qed.

Lemma replace_column64_ext col f g d s :
  lookup col d = Some s -> f s = g s ->
  replace_column col f d = replace_column col g d.
Proof.
  induction d as [|[name s'] d IH]; simpl; [discriminate|].
  destruct (String.eqb col name).
  - intros [= ->] ->. reflexivity.
  - intros H1 H2. rewrite IH; auto.
Qed.

Lemma filled_value_for_returns fill_method s :
  exists fv, filled_value_for np_sum fill_method s = Ok fv.
Proof.
  destruct fill_method, s as [l|l]; unfold filled_value_for; simpl; eauto.
  - destruct (modes eqb leb (notna l)); simpl; eauto.
  - destruct (modes String.eqb String.leb (present l)); simpl; eauto.
Qed.

Lemma loop_body64_run fill_method d col s :
  lookup col d = Some s ->
  loop_body np_sum fill_method d col
  = Ok (replace_column col (column_after np_sum fill_method) d).
Proof.
  intros Hl. unfold loop_body. rewrite Hl.
  destruct (0 <? isnull_sum s) eqn:Hn.
  - destruct (filled_value_for_returns fill_method s) as [fv Hfv].
    rewrite Hfv. destruct fv as [v|].
    + rewrite (replace_column64_ext col (column_after np_sum fill_method) (fillna v) d s);
        [reflexivity|exact Hl|].
      unfold column_after. rewrite Hn, Hfv. reflexivity.
    + rewrite (replace_column64_same col _ d s); [reflexivity|exact Hl|].
      unfold column_after. rewrite Hn, Hfv. reflexivity.
  - rewrite (replace_column64_same col _ d s); [reflexivity|exact Hl|].
    unfold column_after. rewrite Hn. reflexivity.
Qed.

Lemma columns64_replace_column col f d :
  columns (replace_column col f d) = columns d.
Proof.
  unfold columns. induction d as [|[name s] d IH]; simpl; [reflexivity|].
  destruct (String.eqb col name); simpl; [reflexivity|]. rewrite IH. reflexivity.
Qed.

Lemma lookup64_in_columns col d :
  In col (columns d) -> exists s, lookup col d = Some s.
Proof.
  unfold columns. induction d as [|[name s] d IH]; simpl; [tauto|].
  destruct (String.eqb_spec col name) as [->|Hne].
  - intros _. eauto.
  - intros [H|H]; [congruence|]. apply IH. exact H.
Qed.

Lemma for_each64_run fill_method cols d :
  (forall col, In col cols -> In col (columns d)) ->
  for_each np_sum cols fill_method d
  = Ok (fold_left (fun d col => replace_column col (column_after np_sum fill_method) d) cols d).
Proof.
  revert d. induction cols as [|col cols IH]; intros d Hin; simpl.
  - reflexivity.
  - destruct (lookup64_in_columns col d) as [s Hs]; [apply Hin; left; reflexivity|].
    rewrite (loop_body64_run fill_method d col s Hs).
    apply IH. intros c Hc. rewrite columns64_replace_column.
    apply Hin. right. exact Hc.
Qed.

Lemma fold_replace_other (f : Series -> Series) cols name s d :
  ~ In name cols ->
  fold_left (fun d col => replace_column col f d) cols ((name, s) :: d)
  = (name, s) :: fold_left (fun d col => replace_column col f d) cols d.
Proof.
  revert d s. induction cols as [|col cols IH]; intros d s Hnot; simpl.
  - reflexivity.
  - destruct (String.eqb_spec col name) as [->|Hne].
    + exfalso. apply Hnot. left. reflexivity.
    + apply IH. intros H. apply Hnot. right. exact H.
Qed.

Lemma fold_replace_all (f : Series -> Series) d :
  NoDup (columns d) ->
  fold_left (fun d col => replace_column col f d) (columns d) d
  = map (fun c => (fst c, f (snd c))) d.
Proof.
  induction d as [|[name s] d IH]; intros Hnd; [reflexivity|].
  simpl in Hnd. inversion Hnd as [|? ? Hnot Hnd']; subst.
  simpl. rewrite String.eqb_refl.
  rewrite fold_replace_other by exact Hnot.
  rewrite IH by exact Hnd'. reflexivity.
Qed.

Lemma clean_data64_all_columns fill_method d :
  well_formed d ->
  let out := map (fun c => (fst c, column_after np_sum fill_method (snd c))) d in
  clean_data np_sum fill_method false d
  = Ok (out, isnull_sum_sum out, message_of (isnull_sum_sum out)).
Proof.
  intros Hwf out. unfold clean_data, cols_to_process.
  rewrite for_each64_run by auto.
  rewrite fold_replace_all by exact Hwf. reflexivity.
Qed.

Lemma map_keep_present (v : float) l :
  List.length (filter is_nan l) = 0 ->
  map (fun x => if is_nan x then v else x) l = l.
Proof.
  induction l as [|x l IH]; simpl; [reflexivity|].
  destruct (is_nan x); simpl; [discriminate|].
  intros H. rewrite IH; auto.
Qed.

Lemma column_after_mean l :
  column_after np_sum Mean (Float64 l)
  = Float64 (map (fun x => if is_nan x && negb (is_nan (nanmean np_sum l))
                           then nanmean np_sum l else x) l).
Proof.
  unfold column_after. cbn [isnull_sum filled_value_for Method_eqb is_numeric_dtype
                    andb mean fillna].
  destruct (is_nan (nanmean np_sum l)) eqn:Hm.
  - assert (E : map (fun x => if is_nan x && negb true
                              then nanmean np_sum l else x) l = l).
    { rewrite <- (map_id l) at 2. apply map_ext. intros x.
      rewrite andb_false_r. reflexivity. }
    rewrite E. destruct (0 <? List.length (filter is_nan l)); reflexivity.
  - assert (E : map (fun x => if is_nan x && negb false
                              then nanmean np_sum l else x) l
                = map (fun x => if is_nan x then nanmean np_sum l else x) l).
    { apply map_ext. intros x. rewrite andb_true_r. reflexivity. }
    rewrite E. destruct (0 <? List.length (filter is_nan l)) eqn:Hn;
      [reflexivity|].
    rewrite map_keep_present; [reflexivity|].
    apply Nat.ltb_ge in Hn. lia.
Qed.
End Sum.

Lemma well_formed_scenario64 : well_formed scenario_table.
Proof.
  unfold well_formed, scenario_table. simpl.
  repeat constructor; simpl; intuition discriminate.
Qed.

(** C1, as the specification has it, fails: the three present values of
    the column [1, 2, NaN, 2] have the arithmetic mean 5/3, and the missing
    cell is filled with the double 1.6666666666666667, the rounded
    quotient, which is another number (5/3 is no double). *)
Lemma mean_is_rounded_not_exact :
  arithmetic_mean [of_int 1; of_int 2; nan; of_int 2] = Some (5#3)%Q /\
  clean_data left_to_right Mean false thirds_table
  = Ok ([("x"%string,
          Float64 [of_int 1; of_int 2; one_point_6666666666666667; of_int 2])],
        0, success) /\
  option_map (fun q => Qeq_bool q (5#3)) (exact_value one_point_6666666666666667)
  = Some false.
Proof.
  split; [vm_compute; reflexivity|]. split; vm_compute; reflexivity.
Qed.

(** C1, amended.  Under Mean with every column in scope, the block returns
    a table with the same labels in which each numeric column keeps its
    present cells and has each missing cell replaced by the value [mean()]
    returned for the column, a double: the sum of the present cells as
    numpy adds them, divided by their number, hence rounded, and possibly
    [inf]; when that value is [nan] (no present cell, or [inf] and [-inf]
    among them) the cells stay missing.  On Age=[28, NaN, 30],
    Salary=[NaN, 45000, 50000], where the sums and quotients are exact, the
    result is Age=[28, 29, 30], Salary=[47500, 45000, 50000], with 0 cells
    still missing. *)
Theorem mean64_fills_numeric_columns :
  (forall np_sum d, well_formed d ->
     exists out remaining msg,
       clean_data np_sum Mean false d = Ok (out, remaining, msg) /\
       columns out = columns d /\
       forall i name l,
         nth_error d i = Some (name, Float64 l) ->
         let m := nanmean np_sum l in
         nth_error out i
         = Some (name,
                 Float64 (map (fun x => if is_nan x && negb (is_nan m)
                                        then m else x) l)) /\
         (notna l <> [] ->
          m = div (np_sum (map (fun x => if is_nan x then zero else x) l))
                  (of_int (Z.of_nat (List.length (notna l)))))) /\
  clean_data left_to_right Mean false scenario_table
  = Ok (scenario_cleaned, 0, success).
Proof.
  split; [|vm_compute; reflexivity].
  intros np_sum d Hwf. do 3 eexists.
  split; [apply clean_data64_all_columns; exact Hwf|].
  split.
  - unfold columns. rewrite map_map. reflexivity.
  - intros i name l Hi m. split.
    + rewrite nth_error_map, Hi. cbn [option_map fst snd].
      rewrite column_after_mean. reflexivity.
    + intros Hp. subst m. unfold nanmean.
      destruct (notna l); [congruence|reflexivity].
Qed.

Lemma mean64_fills_numeric_columns_witness :
  well_formed scenario_table /\
  exists out remaining msg,
    clean_data left_to_right Mean false scenario_table
    = Ok (out, remaining, msg) /\
    nth_error out 0
    = Some ("Age"%string, Float64 [of_int 28; of_int 29; of_int 30]).
Proof.
  split; [exact well_formed_scenario64|].
  destruct (proj1 mean64_fills_numeric_columns left_to_right scenario_table
              well_formed_scenario64)
    as [out [remaining [msg [Hrun [_ Hcols]]]]].
  exists out, remaining, msg. split; [exact Hrun|].
  rewrite (proj1 (Hcols 0 "Age"%string _ eq_refl)).
  vm_compute. reflexivity.
Defined.
End Cleaner64Facts.
